(** * The stance resolver of the hexapod: [src/hexapod/VirtualHexapod.js]

    A shallow embedding of the [VirtualHexapod] class and of the three
    helpers defined next to it ([computeLocalAxes], [transformLocalAxes],
    [buildLegsList]), followed by the properties the specification states
    about them.

    The class lives among collaborators it imports: [Vector], [Hexagon],
    [Linkage], the geometry helpers, the orientation solver, the twist
    solvers and two constant tables.  Their data is modelled below from
    the way the class uses it; the parts that compute (forward kinematics,
    the solvers, the rotation builders) are interfaces, one type class per
    imported module, so that every statement holds whatever those modules
    compute.

    JavaScript numbers are taken as an abstract number type [num] with the
    operations the code applies to them.  The handful of arithmetic laws a
    proof needs ([a + 0 = a] and the like) are collected in [ExactArith];
    they hold of integers, rationals and reals. *)

From Stdlib Require Import List String ZArith Bool Lia.
From Stdlib Require Import Rdefinitions Raxioms RIneq.
Import ListNotations.

Set Implicit Arguments.

(** ** Numbers *)

Class Number (num : Type) : Type := {
  zero : num;
  one : num;
  add : num -> num -> num;
  mul : num -> num -> num;
  (* the [===] of JavaScript, on two numbers *)
  strictEq : num -> num -> bool
}.

Declare Scope num_scope.
Delimit Scope num_scope with num.
Infix "+" := add : num_scope.
Infix "*" := mul : num_scope.
Infix "===" := strictEq (at level 70, no associativity) : num_scope.

Class ExactArith (num : Type) {N : Number num} : Prop := {
  strictEq_spec : forall a b : num, strictEq a b = true <-> a = b;
  add_zero_l : forall a : num, add zero a = a;
  add_zero_r : forall a : num, add a zero = a;
  mul_zero_r : forall a : num, mul a zero = zero;
  mul_one_r : forall a : num, mul a one = a
}.
Arguments ExactArith num {N}.

(** ** 4x4 homogeneous transforms *)

Module Matrix.
Section Def.
Context {num : Type} {N : Number num}.

Record row : Type := Row { c0 : num; c1 : num; c2 : num; c3 : num }.

Record t : Type := Rows { r0 : row; r1 : row; r2 : row; r3 : row }.

(** [identity(4)] of mathjs. *)
Definition identity4 : t :=
  Rows (Row one zero zero zero)
       (Row zero one zero zero)
       (Row zero zero one zero)
       (Row zero zero zero one).

End Def.
Arguments row : clear implicits.
Arguments t : clear implicits.
End Matrix.

(** ** Points and vectors *)

Module Vector.
Section Def.
Context {num : Type} {N : Number num}.
Local Open Scope num_scope.

Record t : Type := make {
  x : num;
  y : num;
  z : num;
  name : string;
  id : string
}.

(** The [id] a vector gets when none is given; the property table of
    [VirtualHexapod.js] shows it on [localAxes] and [cogProjection]. *)
Definition noId : string := "no-id".

(** Modelled from the spec: [Vector.js] is not part of the sources.  The
    spec describes vectors as immutable 3-D points carried through 4x4
    homogeneous transforms, "rotation/translation composition": a point is
    multiplied by the upper three rows of the matrix, the fourth column
    being the translation. *)
Definition newTrot (v : t) (m : Matrix.t num) (name' id' : string) : t :=
  let r0 := Matrix.r0 m in
  let r1 := Matrix.r1 m in
  let r2 := Matrix.r2 m in
  make (x v * Matrix.c0 r0 + y v * Matrix.c1 r0 + z v * Matrix.c2 r0 + Matrix.c3 r0)
       (x v * Matrix.c0 r1 + y v * Matrix.c1 r1 + z v * Matrix.c2 r1 + Matrix.c3 r1)
       (x v * Matrix.c0 r2 + y v * Matrix.c1 r2 + z v * Matrix.c2 r2 + Matrix.c3 r2)
       name' id'.

(** Modelled from the spec: [Vector.js] is not part of the sources.  The
    rotation clone of a point: the same transform, the clone keeping the
    name and the id. *)
Definition cloneTrot (v : t) (m : Matrix.t num) : t :=
  newTrot v m (name v) (id v).

(** Modelled from the spec: [Vector.js] is not part of the sources.  The
    translation clone of a point: each coordinate moved by its shift. *)
Definition cloneShift (v : t) (tx ty tz : num) : t :=
  make (x v + tx) (y v + ty) (z v + tz) (name v) (id v).

(** Modelled from the spec: [Vector.js] is not part of the sources.  The
    rotation followed by the translation. *)
Definition cloneTrotShift (v : t) (m : Matrix.t num) (tx ty tz : num) : t :=
  cloneShift (cloneTrot v m) tx ty tz.

(** The coordinates alone, for statements that ignore names. *)
Definition coords (v : t) : num * num * num := (x v, y v, z v).

End Def.
Arguments t : clear implicits.
End Vector.

(** ** Dimensions and poses *)

Module BodyDimensions.
Record t (num : Type) : Type := make { front : num; middle : num; side : num }.
End BodyDimensions.

Module LegDimensions.
Record t (num : Type) : Type := make { coxia : num; femur : num; tibia : num }.
(** [Object.values] lists the properties in the order they were written. *)
Definition values {num : Type} (d : t num) : list num :=
  [coxia d; femur d; tibia d].
End LegDimensions.

Module Dimensions.
Record t (num : Type) : Type := make {
  front : num; side : num; middle : num;
  coxia : num; femur : num; tibia : num
}.
End Dimensions.

(** The six leg positions: "six fixed leg-position identifiers". *)
Inductive Position : Type :=
| rightMiddle | rightFront | leftFront | leftMiddle | leftBack | rightBack.

(** Modelled from the spec: [constants.js] is not part of the sources.  The
    "canonical ordered list of positions"; the property table of the class
    fixes its ends ("the first element is the rightMiddle leg and the last
    element is rightBack leg"), the order in between is the walk round the
    body.  No statement below depends on the order, only on the list
    naming each position. *)
Definition POSITION_NAMES_LIST : list Position :=
  [rightMiddle; rightFront; leftFront; leftMiddle; leftBack; rightBack].

Module PoseAngles.
Record t (num : Type) : Type := make { alpha : num; beta : num; gamma : num }.
End PoseAngles.

(** A pose maps each position name to its angle triple; [Pose.at p pos] is
    [pose[position]]. *)
Module Pose.
Record t (num : Type) : Type := make {
  atRightMiddle : PoseAngles.t num;
  atRightFront : PoseAngles.t num;
  atLeftFront : PoseAngles.t num;
  atLeftMiddle : PoseAngles.t num;
  atLeftBack : PoseAngles.t num;
  atRightBack : PoseAngles.t num
}.
Definition at_ {num : Type} (p : t num) (position : Position) : PoseAngles.t num :=
  match position with
  | rightMiddle => atRightMiddle p
  | rightFront => atRightFront p
  | leftFront => atLeftFront p
  | leftMiddle => atLeftMiddle p
  | leftBack => atLeftBack p
  | rightBack => atRightBack p
  end.
End Pose.

(** ** The body *)

Module Hexagon.
Section Def.
Context {num : Type} {N : Number num}.

(** Modelled from the spec: [Hexagon.js] is not part of the sources.  The
    body is "six vertices + head point + center-of-gravity point"; the
    class reads [verticesList] and [cog]. *)
Record t : Type := make {
  verticesList : list (Vector.t num);
  head : Vector.t num;
  cog : Vector.t num
}.

(** Every stored point through the same function. *)
Definition mapPoints (f : Vector.t num -> Vector.t num) (h : t) : t :=
  make (map f (verticesList h)) (f (head h)) (f (cog h)).

(** Modelled from the spec: [Hexagon.js] is not part of the sources.  The
    clone operations are "applied uniformly to every stored point
    (vertices, head, center of gravity)"; this is the rotation. *)
Definition cloneTrot (h : t) (m : Matrix.t num) : t :=
  mapPoints (fun p => Vector.cloneTrot p m) h.

(** Modelled from the spec: [Hexagon.js] is not part of the sources.  The
    translation, applied uniformly to every stored point. *)
Definition cloneShift (h : t) (tx ty tz : num) : t :=
  mapPoints (fun p => Vector.cloneShift p tx ty tz) h.

(** Modelled from the spec: [Hexagon.js] is not part of the sources.  The
    rotation then the translation, applied uniformly to every stored
    point. *)
Definition cloneTrotShift (h : t) (m : Matrix.t num) (tx ty tz : num) : t :=
  mapPoints (fun p => Vector.cloneTrotShift p m tx ty tz) h.

End Def.
Arguments t : clear implicits.
End Hexagon.

(** ** A leg *)

Module Linkage.
Section Def.
Context {num : Type} {N : Number num}.

(** Modelled from the spec: [Linkage.js] is not part of the sources.  A leg
    "holds its joint points, its position identifier, its pose angles, and
    one designated maybe ground contact point". *)
Record t : Type := make {
  position : Position;
  pose : PoseAngles.t num;
  allPointsList : list (Vector.t num);
  maybeGroundContactPoint : Vector.t num
}.

Definition mapPoints (f : Vector.t num -> Vector.t num) (l : t) : t :=
  make (position l) (pose l) (map f (allPointsList l))
       (f (maybeGroundContactPoint l)).

(** Modelled from the spec: [Linkage.js] is not part of the sources.  Each
    clone operation returns "a new Leg with every point consistently
    transformed"; this is the rotation. *)
Definition cloneTrot (l : t) (m : Matrix.t num) : t :=
  mapPoints (fun p => Vector.cloneTrot p m) l.

(** Modelled from the spec: [Linkage.js] is not part of the sources.  The
    translation of every point of the leg. *)
Definition cloneShift (l : t) (tx ty tz : num) : t :=
  mapPoints (fun p => Vector.cloneShift p tx ty tz) l.

(** Modelled from the spec: [Linkage.js] is not part of the sources.  The
    rotation then the translation of every point of the leg. *)
Definition cloneTrotShift (l : t) (m : Matrix.t num) (tx ty tz : num) : t :=
  mapPoints (fun p => Vector.cloneTrotShift p m tx ty tz) l.

End Def.
Arguments t : clear implicits.
End Linkage.

(** ** The imported modules, as interfaces *)

(** [new Hexagon(bodyDimensions)]. *)
Class HexagonModule (num : Type) : Type := {
  newHexagon : BodyDimensions.t num -> Hexagon.t num
}.

(** The forward kinematics behind [new Linkage(legDimensions, position,
    vertex, poseAngles)]: the joint points and the designated contact
    point.  The vertex is [verticesList[index]], which is [undefined]
    ([None]) past the end of the list. *)
Class LinkageModule (num : Type) : Type := {
  legPoints : LegDimensions.t num -> Position -> option (Vector.t num) ->
              PoseAngles.t num -> list (Vector.t num) * Vector.t num
}.

(** What [computeOrientationProperties] returns when it does not return
    [null]. *)
Module Solved.
Record t (num : Type) : Type := make {
  nAxis : Vector.t num;
  height : num;
  groundLegsNoGravity : list (Linkage.t num)
}.
End Solved.

(** [solvers/orientSolverSpecific]; [None] is [null]. *)
Class OrientSolver (num : Type) : Type := {
  computeOrientationProperties : list (Linkage.t num) -> option (Solved.t num)
}.

(** [solvers/twistSolver]. *)
Class TwistSolver (num : Type) : Type := {
  simpleTwist : list (Linkage.t num) -> num;
  mightTwist : list (Linkage.t num) -> bool;
  complexTwist : list (Vector.t num) -> list (Vector.t num) -> num
}.

(** [geometry]. *)
Class GeometryModule (num : Type) : Type := {
  matrixToAlignVectorAtoB : Vector.t num -> Vector.t num -> Matrix.t num;
  tRotZmatrix : num -> Matrix.t num
}.

(** [templates]. *)
Class Templates (num : Type) : Type := {
  DEFAULT_POSE : Pose.t num
}.

(** Modelled from the spec: [Linkage.js] is not part of the sources.  Its
    constructor keeps the position and the pose angles it is given next to
    the points it computes ("holds its joint points, its position
    identifier, its pose angles"). *)
Definition newLinkage {num : Type} {L : LinkageModule num}
  (legDimensions : LegDimensions.t num) (position : Position)
  (vertex : option (Vector.t num)) (poseAngles : PoseAngles.t num)
  : Linkage.t num :=
  let points := legPoints legDimensions position vertex poseAngles in
  Linkage.make position poseAngles (fst points) (snd points).

(** ** [VirtualHexapod.js]: module-level helpers *)

Module LocalAxes.
Record t (num : Type) : Type := make {
  xAxis : Vector.t num;
  yAxis : Vector.t num;
  zAxis : Vector.t num
}.
End LocalAxes.

Module Flags.
(** A property that is left out of the flags object reads as [undefined],
    which the tests of the constructor treat as [false]. *)
Record t : Type := make {
  noGravity : bool;
  shiftedUp : bool;
  hasNoPoints : bool
}.
Definition default : t := make false false false.
Definition onlyHasNoPoints : t := make false false true.
End Flags.

(** [Array.prototype.map] with the [(element, index)] callback. *)
Fixpoint mapFrom {A B : Type} (f : A -> nat -> B) (index : nat) (l : list A)
  : list B :=
  match l with
  | [] => []
  | a :: l' => f a index :: mapFrom f (S index) l'
  end.

Definition mapWithIndex {A B : Type} (f : A -> nat -> B) (l : list A) : list B :=
  mapFrom f 0 l.

Section Helpers.
Context {num : Type} {N : Number num}.

Definition WORLD_AXES : LocalAxes.t num :=
  LocalAxes.make
    (Vector.make one zero zero "worldXaxis" Vector.noId)
    (Vector.make zero one zero "worldYaxis" Vector.noId)
    (Vector.make zero zero one "worldZaxis" Vector.noId).

Definition computeLocalAxes (transformMatrix : Matrix.t num) : LocalAxes.t num :=
  LocalAxes.make
    (Vector.newTrot (LocalAxes.xAxis WORLD_AXES) transformMatrix "hexapodXaxis" Vector.noId)
    (Vector.newTrot (LocalAxes.yAxis WORLD_AXES) transformMatrix "hexapodYaxis" Vector.noId)
    (Vector.newTrot (LocalAxes.zAxis WORLD_AXES) transformMatrix "hexapodZaxis" Vector.noId).

Definition transformLocalAxes (localAxes : LocalAxes.t num)
  (twistMatrix : Matrix.t num) : LocalAxes.t num :=
  LocalAxes.make
    (Vector.cloneTrot (LocalAxes.xAxis localAxes) twistMatrix)
    (Vector.cloneTrot (LocalAxes.yAxis localAxes) twistMatrix)
    (Vector.cloneTrot (LocalAxes.zAxis localAxes) twistMatrix).

Definition buildLegsList {L : LinkageModule num}
  (verticesList : list (Vector.t num)) (pose : Pose.t num)
  (legDimensions : LegDimensions.t num) : list (Linkage.t num) :=
  mapWithIndex
    (fun position index =>
       newLinkage legDimensions position (nth_error verticesList index)
                  (Pose.at_ pose position))
    POSITION_NAMES_LIST.

End Helpers.

(** ** [VirtualHexapod.js]: the class *)

(** The fields of an instance.  [dimensions], [pose] and [twistAngle] are
    assigned by the first statement of the constructor; each of the other
    four is [undefined] ([None]) until a later statement assigns it. *)
Record VirtualHexapod (num : Type) : Type := mkVirtualHexapod {
  dimensions : Dimensions.t num;
  pose : Pose.t num;
  twistAngle : num;
  legs : option (list (Linkage.t num));
  body : option (Hexagon.t num);
  localAxes : option (LocalAxes.t num);
  groundContactPoints : option (list (Vector.t num))
}.

Section Assignments.
Context {num : Type}.
Implicit Type this : VirtualHexapod num.

Definition set_twistAngle (a : num) this : VirtualHexapod num :=
  mkVirtualHexapod (dimensions this) (pose this) a (legs this) (body this)
    (localAxes this) (groundContactPoints this).

Definition set_legs (l : option (list (Linkage.t num))) this : VirtualHexapod num :=
  mkVirtualHexapod (dimensions this) (pose this) (twistAngle this) l (body this)
    (localAxes this) (groundContactPoints this).

Definition set_body (b : option (Hexagon.t num)) this : VirtualHexapod num :=
  mkVirtualHexapod (dimensions this) (pose this) (twistAngle this) (legs this) b
    (localAxes this) (groundContactPoints this).

Definition set_localAxes (a : option (LocalAxes.t num)) this : VirtualHexapod num :=
  mkVirtualHexapod (dimensions this) (pose this) (twistAngle this) (legs this)
    (body this) a (groundContactPoints this).

Definition set_groundContactPoints (g : option (list (Vector.t num))) this
  : VirtualHexapod num :=
  mkVirtualHexapod (dimensions this) (pose this) (twistAngle this) (legs this)
    (body this) (localAxes this) g.

(** *** Methods

    A method runs on [this], may assign to its fields, and either returns
    a value or throws: reading a property of [undefined] is a [TypeError],
    the only exception this class can raise.  [None] is the throw. *)
Definition Method (A : Type) : Type :=
  VirtualHexapod num -> option (A * VirtualHexapod num).

Definition ret {A : Type} (a : A) : Method A := fun this => Some (a, this).

Definition bind {A B : Type} (c : Method A) (k : A -> Method B) : Method B :=
  fun this =>
    match c this with
    | Some (a, this') => k a this'
    | None => None
    end.

(** [this.field], for a use that needs the field's value. *)
Definition gets {A : Type} (field : VirtualHexapod num -> A) : Method A :=
  fun this => Some (field this, this).

(** [this.field.something]: throws when the field is [undefined]. *)
Definition deref {A : Type} (field : VirtualHexapod num -> option A) : Method A :=
  fun this =>
    match field this with
    | Some a => Some (a, this)
    | None => None
    end.

(** [this.field = value]. *)
Definition assign (update : VirtualHexapod num -> VirtualHexapod num)
  : Method unit :=
  fun this => Some (tt, update this).

(** A completed call that ran on a fresh object: the object, or the throw. *)
Definition lift {A : Type} (o : option A) : Method A :=
  fun this =>
    match o with
    | Some a => Some (a, this)
    | None => None
    end.

End Assignments.

Declare Scope method_scope.
Delimit Scope method_scope with method.
Notation "x <- c ;; k" := (bind c (fun x => k))
  (at level 61, c at next level, right associativity) : method_scope.
Notation "c ;; k" := (bind c (fun _ => k))
  (at level 61, right associativity) : method_scope.

Section Class.
Context {num : Type} {N : Number num}.
Context {HX : HexagonModule num} {LK : LinkageModule num}.
Context {OS : OrientSolver num} {TW : TwistSolver num}.
Context {GE : GeometryModule num} {TP : Templates num}.
Local Open Scope num_scope.
Local Open Scope method_scope.
Implicit Type this : VirtualHexapod num.

(** The object once [Object.assign(this, { dimensions, pose, twistAngle: 0 })]
    has run on a new instance. *)
Definition shell (dimensions : Dimensions.t num) (pose : Pose.t num)
  : VirtualHexapod num :=
  mkVirtualHexapod dimensions pose zero None None None None.

(** *** Getters *)

Definition distanceFromGround this : option num :=
  match body this with
  | Some b => Some (Vector.z (Hexagon.cog b))
  | None => None
  end.

Definition cogProjection this : option (Vector.t num) :=
  match body this with
  | Some b =>
      Some (Vector.make (Vector.x (Hexagon.cog b)) (Vector.y (Hexagon.cog b)) zero
              "centerOfGravityProjectionPoint" Vector.noId)
  | None => None
  end.

Definition hasTwisted this : bool := negb (twistAngle this === zero).

Definition bodyDimensions this : BodyDimensions.t num :=
  let d := dimensions this in
  BodyDimensions.make (Dimensions.front d) (Dimensions.middle d) (Dimensions.side d).

Definition legDimensions this : LegDimensions.t num :=
  let d := dimensions this in
  LegDimensions.make (Dimensions.coxia d) (Dimensions.femur d) (Dimensions.tibia d).

(** *** [_twist] *)

Definition _twist : Method unit :=
  angle <- gets (@twistAngle num) ;;
  let twistMatrix := tRotZmatrix angle in
  ls <- deref (@legs num) ;;
  assign (set_legs (Some (map (fun leg => Linkage.cloneTrot leg twistMatrix) ls))) ;;
  b <- deref (@body num) ;;
  assign (set_body (Some (Hexagon.cloneTrot b twistMatrix))) ;;
  points <- deref (@groundContactPoints num) ;;
  assign (set_groundContactPoints
            (Some (map (fun point => Vector.cloneTrot point twistMatrix) points))) ;;
  axes <- deref (@localAxes num) ;;
  assign (set_localAxes (Some (transformLocalAxes axes twistMatrix))).

(** *** [_danglingHexapod] *)

Definition _danglingHexapod (body' : Hexagon.t num)
  (legs' : list (Linkage.t num)) (shiftedUp : bool) : Method unit :=
  let transformMatrix := Matrix.identity4 in
  assign (set_localAxes (Some (computeLocalAxes transformMatrix))) ;;
  assign (set_groundContactPoints (Some [])) ;;
  if negb shiftedUp then
    assign (set_body (Some body')) ;;
    assign (set_legs (Some legs'))
  else
    dims <- gets legDimensions ;;
    let height :=
      fold_left (fun height dim => height + dim) (LegDimensions.values dims) zero in
    assign (set_body
              (Some (Hexagon.cloneTrotShift body' Matrix.identity4 zero zero height))) ;;
    assign (set_legs
              (Some (map (fun leg =>
                            Linkage.cloneTrotShift leg Matrix.identity4 zero zero height)
                         legs'))).

(** *** The constructor

    The two numbered steps that follow the solver are written as methods
    of their own; [constructorBody] is the constructor after its first
    statement, and its early [return]s are the branches that end in
    [ret tt]. *)

(** STEP 2: rotate and shift legs and body to this orientation. *)
Definition rotateAndShift (flatHexagon : Hexagon.t num)
  (legsNoGravity : list (Linkage.t num)) (solved : Solved.t num) : Method unit :=
  let transformMatrix :=
    matrixToAlignVectorAtoB (Solved.nAxis solved) (LocalAxes.zAxis WORLD_AXES) in
  assign (set_legs
            (Some (map (fun leg =>
                          Linkage.cloneTrotShift leg transformMatrix
                            zero zero (Solved.height solved))
                       legsNoGravity))) ;;
  assign (set_body
            (Some (Hexagon.cloneTrotShift flatHexagon transformMatrix
                     zero zero (Solved.height solved)))) ;;
  assign (set_localAxes (Some (computeLocalAxes transformMatrix))) ;;
  assign (set_groundContactPoints
            (Some (map (fun leg =>
                          Vector.cloneTrotShift (Linkage.maybeGroundContactPoint leg)
                            transformMatrix zero zero (Solved.height solved))
                       (Solved.groundLegsNoGravity solved)))).

(** STEP 3: twist around the z axis if you have to. *)
Definition twistAroundZ (flatHexagon : Hexagon.t num) (solved : Solved.t num)
  : Method unit :=
  assign (set_twistAngle (simpleTwist (Solved.groundLegsNoGravity solved))) ;;
  angle <- gets (@twistAngle num) ;;
  (if negb (angle === zero) then _twist else ret tt) ;;
  if mightTwist (Solved.groundLegsNoGravity solved) then
    legDims <- gets legDimensions ;;
    let oldPoints :=
      map (fun leg => Linkage.maybeGroundContactPoint leg)
          (buildLegsList (Hexagon.verticesList flatHexagon) DEFAULT_POSE legDims) in
    let newPoints :=
      map (fun leg => Linkage.maybeGroundContactPoint leg)
          (Solved.groundLegsNoGravity solved) in
    assign (set_twistAngle (complexTwist oldPoints newPoints)) ;;
    _twist
  else ret tt.

Definition constructorBody (flags : Flags.t) : Method unit :=
  if Flags.hasNoPoints flags then ret tt else
  bodyDims <- gets bodyDimensions ;;
  let flatHexagon := newHexagon bodyDims in
  thePose <- gets (@pose num) ;;
  legDims <- gets legDimensions ;;
  let legsNoGravity :=
    buildLegsList (Hexagon.verticesList flatHexagon) thePose legDims in
  if Flags.noGravity flags then
    _danglingHexapod flatHexagon legsNoGravity (Flags.shiftedUp flags)
  else
  (* STEP 1: find the new orientation of the body *)
  match computeOrientationProperties legsNoGravity with
  | None =>
      (* unstable pose *)
      _danglingHexapod flatHexagon legsNoGravity (Flags.shiftedUp flags)
  | Some solved =>
      rotateAndShift flatHexagon legsNoGravity solved ;;
      ls <- deref (@legs num) ;;
      if forallb (fun leg => PoseAngles.alpha (Linkage.pose leg) === zero) ls then
        (* hexapod will not twist about z axis *)
        ret tt
      else
        twistAroundZ flatHexagon solved
  end.

(** [new VirtualHexapod(dimensions, pose, flags)]: the instance, or the
    throw. *)
Definition new (dimensions : Dimensions.t num) (pose : Pose.t num)
  (flags : Flags.t) : option (VirtualHexapod num) :=
  match constructorBody flags (shell dimensions pose) with
  | Some (_, this) => Some this
  | None => None
  end.

(** *** [cloneTrot] and [cloneShift] *)

Definition cloneTrot (transformMatrix : Matrix.t num)
  : Method (VirtualHexapod num) :=
  dims <- gets (@dimensions num) ;;
  thePose <- gets (@pose num) ;;
  clone <- lift (new dims thePose Flags.onlyHasNoPoints) ;;
  b <- deref (@body num) ;;
  let clone := set_body (Some (Hexagon.cloneTrot b transformMatrix)) clone in
  ls <- deref (@legs num) ;;
  let clone :=
    set_legs (Some (map (fun leg => Linkage.cloneTrot leg transformMatrix) ls)) clone in
  points <- deref (@groundContactPoints num) ;;
  let clone :=
    set_groundContactPoints
      (Some (map (fun point => Vector.cloneTrot point transformMatrix) points)) clone in
  (* Note: assumes that the transform matrix is a rotation transform only *)
  axes <- deref (@localAxes num) ;;
  let clone := set_localAxes (Some (transformLocalAxes axes transformMatrix)) clone in
  ret clone.

Definition cloneShift (tx ty tz : num) : Method (VirtualHexapod num) :=
  dims <- gets (@dimensions num) ;;
  thePose <- gets (@pose num) ;;
  clone <- lift (new dims thePose Flags.onlyHasNoPoints) ;;
  b <- deref (@body num) ;;
  let clone := set_body (Some (Hexagon.cloneShift b tx ty tz)) clone in
  ls <- deref (@legs num) ;;
  let clone :=
    set_legs (Some (map (fun leg => Linkage.cloneShift leg tx ty tz) ls)) clone in
  points <- deref (@groundContactPoints num) ;;
  let clone :=
    set_groundContactPoints
      (Some (map (fun point => Vector.cloneShift point tx ty tz) points)) clone in
  axes <- gets (@localAxes num) ;;
  let clone := set_localAxes axes clone in
  ret clone.

End Class.

(** ** The vocabulary of the specification

    Names for the intermediate stances and for the words the specification
    uses about them.  Each is written from the sentence of the
    specification quoted with it; the theorems compare them with what the
    constructor and the clone methods compute. *)

Section Vocabulary.
Context {num : Type} {N : Number num}.
Context {HX : HexagonModule num} {LK : LinkageModule num}.
Context {OS : OrientSolver num} {GE : GeometryModule num}.
Local Open Scope num_scope.

(** FlatBuild: "construct the flat body from bodyDimensions, and all six
    legs (in canonical position order) at zero gravity using pose and
    legDimensions". *)
Definition flatBody (dimensions : Dimensions.t num) : Hexagon.t num :=
  newHexagon
    (BodyDimensions.make (Dimensions.front dimensions)
       (Dimensions.middle dimensions) (Dimensions.side dimensions)).

Definition flatLegs (dimensions : Dimensions.t num) (pose : Pose.t num)
  : list (Linkage.t num) :=
  buildLegsList (Hexagon.verticesList (flatBody dimensions)) pose
    (LegDimensions.make (Dimensions.coxia dimensions)
       (Dimensions.femur dimensions) (Dimensions.tibia dimensions)).

(** What the Orientation Solver answers for a pose. *)
Definition orientation (dimensions : Dimensions.t num) (pose : Pose.t num)
  : option (Solved.t num) :=
  computeOrientationProperties (flatLegs dimensions pose).

(** AlignAndShift: "compute the rotation matrix aligning the solved normal
    to the world vertical axis; apply it (plus a translation of height
    along world-up) to every leg, to the body, and to the local coordinate
    axes (derived by rotating the three world unit axes)", the ground
    contact points being "each ground leg's contact point through the same
    matrix+shift". *)
Definition alignMatrix (solved : Solved.t num) : Matrix.t num :=
  matrixToAlignVectorAtoB (Solved.nAxis solved) (LocalAxes.zAxis WORLD_AXES).

Definition aligned (dimensions : Dimensions.t num) (pose : Pose.t num)
  (solved : Solved.t num) : VirtualHexapod num :=
  let m := alignMatrix solved in
  let h := Solved.height solved in
  mkVirtualHexapod dimensions pose zero
    (Some (map (fun leg => Linkage.cloneTrotShift leg m zero zero h)
               (flatLegs dimensions pose)))
    (Some (Hexagon.cloneTrotShift (flatBody dimensions) m zero zero h))
    (Some (computeLocalAxes m))
    (Some (map (fun leg =>
                  Vector.cloneTrotShift (Linkage.maybeGroundContactPoint leg)
                    m zero zero h)
               (Solved.groundLegsNoGravity solved))).

(** "rotate legs, body, ground-contact points, and local axes about the
    world vertical axis by that angle". *)
Definition rotated (m : Matrix.t num) (s : VirtualHexapod num)
  : VirtualHexapod num :=
  mkVirtualHexapod (dimensions s) (pose s) (twistAngle s)
    (option_map (map (fun leg => Linkage.cloneTrot leg m)) (legs s))
    (option_map (fun b => Hexagon.cloneTrot b m) (body s))
    (option_map (fun axes => transformLocalAxes axes m) (localAxes s))
    (option_map (map (fun point => Vector.cloneTrot point m))
       (groundContactPoints s)).

Definition twistedBy (angle : num) (s : VirtualHexapod num) : VirtualHexapod num :=
  rotated (tRotZmatrix angle) s.

(** The two layouts the complex twist compares: "the ground-contact layout
    of a reference default pose (built with the same flat-build logic, no
    joint rotation) against the currently solved ground layout". *)
Definition referenceLayout {TP : Templates num} (dimensions : Dimensions.t num)
  : list (Vector.t num) :=
  map (fun leg => Linkage.maybeGroundContactPoint leg)
      (flatLegs dimensions DEFAULT_POSE).

Definition solvedLayout (solved : Solved.t num) : list (Vector.t num) :=
  map (fun leg => Linkage.maybeGroundContactPoint leg)
      (Solved.groundLegsNoGravity solved).

(** "translated upward": a point moved along world z and nowhere else. *)
Definition raised (h : num) (p : Vector.t num) : Vector.t num :=
  Vector.make (Vector.x p) (Vector.y p) (Vector.z p + h)
    (Vector.name p) (Vector.id p).

(** "Every leg's alpha pose angle is exactly zero." *)
Definition allAlphaZero (pose : Pose.t num) : Prop :=
  forall position : Position, PoseAngles.alpha (Pose.at_ pose position) = zero.

(** The test the constructor makes before it looks for a twist, read off
    the pose: [this.legs.every(leg => leg.pose.alpha === 0)]. *)
Definition everyAlphaIsZero (pose : Pose.t num) : bool :=
  forallb (fun position => PoseAngles.alpha (Pose.at_ pose position) === zero)
    POSITION_NAMES_LIST.

(** The height a dangling stance is lifted by when [shiftedUp] is set:
    "the sum of the three leg segment lengths". *)
Definition legLength (dimensions : Dimensions.t num) : num :=
  Dimensions.coxia dimensions + Dimensions.femur dimensions
  + Dimensions.tibia dimensions.

(** A resolved stance: one whose legs, body, local axes and ground contact
    points have all been assigned. *)
Definition isResolved (s : VirtualHexapod num) : bool :=
  match legs s, body s, localAxes s, groundContactPoints s with
  | Some _, Some _, Some _, Some _ => true
  | _, _, _, _ => false
  end.

(** [groundContactPoints.length], when the list has been assigned. *)
Definition contactCount (s : VirtualHexapod num) : option nat :=
  option_map (@List.length (Vector.t num)) (groundContactPoints s).

(** The coordinates of the three local axes. *)
Definition axesCoords (axes : LocalAxes.t num)
  : (num * num * num) * (num * num * num) * (num * num * num) :=
  (Vector.coords (LocalAxes.xAxis axes),
   Vector.coords (LocalAxes.yAxis axes),
   Vector.coords (LocalAxes.zAxis axes)).

(** Modelled from the spec: the orientation solver is not part of the
    sources.  Its contract: "the subset of legs (groundLegs, 3-6 of them)
    whose contact points lie on the plane". *)
Definition solverContract : Prop :=
  forall (legs : list (Linkage.t num)) (solved : Solved.t num),
    computeOrientationProperties legs = Some solved ->
    3 <= List.length (Solved.groundLegsNoGravity solved) <= 6.

End Vocabulary.

(** The stances a caller can hold: built by the constructor with geometry,
    or cloned from one that is. *)
Inductive Reachable {num : Type} {N : Number num}
  {HX : HexagonModule num} {LK : LinkageModule num}
  {OS : OrientSolver num} {TW : TwistSolver num}
  {GE : GeometryModule num} {TP : Templates num}
  : VirtualHexapod num -> Prop :=
| Reachable_new : forall dimensions pose flags s,
    Flags.hasNoPoints flags = false ->
    new dimensions pose flags = Some s ->
    Reachable s
| Reachable_cloneTrot : forall s m clone s',
    Reachable s ->
    cloneTrot m s = Some (clone, s') ->
    Reachable clone
| Reachable_cloneShift : forall s tx ty tz clone s',
    Reachable s ->
    cloneShift tx ty tz s = Some (clone, s') ->
    Reachable clone.

(** The reading of the twist step under which the complex twist stands
    alone: when the simple twist is non-zero and a twist is still possible,
    the stance is "the AlignAndShift result rotated about the world z-axis
    by the complexTwist angle alone", and that angle is the twist angle. *)
Definition complexTwistAlone {num : Type} {N : Number num}
  {HX : HexagonModule num} {LK : LinkageModule num}
  {OS : OrientSolver num} {TW : TwistSolver num}
  {GE : GeometryModule num} {TP : Templates num}
  (d : Dimensions.t num) (p : Pose.t num) (flags : Flags.t) : Prop :=
  forall solved : Solved.t num,
    Flags.hasNoPoints flags = false ->
    Flags.noGravity flags = false ->
    orientation d p = Some solved ->
    everyAlphaIsZero p = false ->
    simpleTwist (Solved.groundLegsNoGravity solved) <> zero ->
    mightTwist (Solved.groundLegsNoGravity solved) = true ->
    let angle := complexTwist (referenceLayout d) (solvedLayout solved) in
    let expected := twistedBy angle (aligned d p solved) in
    exists s : VirtualHexapod num,
      new d p flags = Some s /\
      legs s = legs expected /\
      body s = body expected /\
      groundContactPoints s = groundContactPoints expected /\
      localAxes s = localAxes expected /\
      twistAngle s = angle.

(** ** A small world to run the class in

    Integer coordinates, angles in degrees, and simple stand-ins for the
    imported modules, so that the definitions above can be evaluated on
    concrete inputs. *)

Module OnIntegers.
Local Open Scope Z_scope.

#[export] Instance Z_Number : Number Z := {
  zero := 0;
  one := 1;
  add := Z.add;
  mul := Z.mul;
  strictEq := Z.eqb
}.

Definition point (x y z : Z) (name : string) : Vector.t Z :=
  Vector.make x y z name Vector.noId.

(** The hexagon with its vertices in the order of the positions, a head
    on the front edge and the centre of gravity at the origin, all at
    height zero. *)
#[export] Instance hexagon : HexagonModule Z := {
  newHexagon := fun d =>
    let front := BodyDimensions.front d in
    let middle := BodyDimensions.middle d in
    let side := BodyDimensions.side d in
    Hexagon.make
      [ point middle 0 0 "rightMiddleVertex";
        point front side 0 "rightFrontVertex";
        point (- front) side 0 "leftFrontVertex";
        point (- middle) 0 0 "leftMiddleVertex";
        point (- front) (- side) 0 "leftBackVertex";
        point front (- side) 0 "rightBackVertex" ]
      (point 0 side 0 "headPoint")
      (point 0 0 0 "centerOfGravityPoint")
}.

(** A leg that stands the same way whatever its angles: coxia and femur
    straight out along x from the vertex, tibia straight down; the foot
    tip is the contact point. *)
#[export] Instance straightLegs : LinkageModule Z := {
  legPoints := fun d _ vertex _ =>
    let v := match vertex with Some v => v | None => point 0 0 0 "origin" end in
    let reach := LegDimensions.coxia d + LegDimensions.femur d in
    let footTip :=
      point (Vector.x v + reach) (Vector.y v) (Vector.z v - LegDimensions.tibia d)
            "footTipPoint" in
    ([ point (Vector.x v) (Vector.y v) (Vector.z v) "bodyContactPoint";
       point (Vector.x v + LegDimensions.coxia d) (Vector.y v) (Vector.z v) "coxiaPoint";
       point (Vector.x v + reach) (Vector.y v) (Vector.z v) "femurPoint";
       footTip ],
     footTip)
}.

(** A solver that finds every leg on the ground of a level body, at the
    depth of the first contact point, when it is given three to six
    legs. *)
Definition levelGround : OrientSolver Z := {|
  computeOrientationProperties := fun legs =>
    match legs with
    | [] => None
    | leg :: _ =>
        if Nat.leb 3 (List.length legs) && Nat.leb (List.length legs) 6 then
          Some (Solved.make (point 0 0 1 "normal")
                  (- Vector.z (Linkage.maybeGroundContactPoint leg)) legs)
        else None
    end
|}.

(** A solver that finds no support at all. *)
Definition noSupport : OrientSolver Z := {|
  computeOrientationProperties := fun _ => None
|}.

(** Twist solvers: the simple twist undoes the alpha that all ground legs
    share; a twist is possible once three ground legs have turned; the
    complex twist reports a quarter turn unless both layouts start at the
    same place. *)
Definition samePlace (p q : Vector.t Z) : bool :=
  (Vector.x p =? Vector.x q) && (Vector.y p =? Vector.y q).

Definition hasTurned (leg : Linkage.t Z) : bool :=
  negb (PoseAngles.alpha (Linkage.pose leg) =? 0).

Definition alphaTwist : TwistSolver Z := {|
  simpleTwist := fun legs =>
    match legs with
    | [] => 0
    | first :: _ =>
        let a := PoseAngles.alpha (Linkage.pose first) in
        if forallb (fun leg => PoseAngles.alpha (Linkage.pose leg) =? a) legs
        then - a else 0
    end;
  mightTwist := fun legs =>
    Nat.leb 3 (List.length (filter hasTurned legs));
  complexTwist := fun oldPoints newPoints =>
    match oldPoints, newPoints with
    | p :: _, q :: _ => if samePlace p q then 0 else 90
    | _, _ => 0
    end
|}.

(** A twist solver that never sees a twist. *)
Definition noTwist : TwistSolver Z := {|
  simpleTwist := fun _ => 0;
  mightTwist := fun _ => false;
  complexTwist := fun _ _ => 0
|}.

(** Rotation about z by an angle in degrees, exact at the quarter turns
    (cosine and sine are then 0, 1 or -1); other angles are left out. *)
Definition quarterTurn (cosine sine : Z) : Matrix.t Z :=
  Matrix.Rows (Matrix.Row cosine (- sine) 0 0)
              (Matrix.Row sine cosine 0 0)
              (Matrix.Row 0 0 1 0)
              (Matrix.Row 0 0 0 1).

#[export] Instance quarterTurns : GeometryModule Z := {
  matrixToAlignVectorAtoB := fun _ _ => Matrix.identity4;
  tRotZmatrix := fun angle =>
    let r := angle mod 360 in
    if r =? 90 then quarterTurn 0 1
    else if r =? 180 then quarterTurn (-1) 0
    else if r =? 270 then quarterTurn 0 (-1)
    else Matrix.identity4
}.

Definition angles (alpha beta gamma : Z) : PoseAngles.t Z :=
  PoseAngles.make alpha beta gamma.

Definition samePose (a : PoseAngles.t Z) : Pose.t Z := Pose.make a a a a a a.

#[export] Instance templates : Templates Z := {
  DEFAULT_POSE := samePose (angles 0 0 0)
}.

(** The dimensions of the specification's concrete scenario. *)
Definition dims : Dimensions.t Z := Dimensions.make 100 100 100 50 80 130.

Definition neutralPose : Pose.t Z := samePose (angles 0 0 0).

(** All six coxias turned a quarter turn. *)
Definition turnedPose : Pose.t Z := samePose (angles 90 0 0).

(** Alpha at rest, the other two joints bent. *)
Definition bentPose : Pose.t Z := samePose (angles 0 30 (-45)).

Definition shiftedUpOnly : Flags.t := Flags.make false true false.
Definition noGravityShiftedUp : Flags.t := Flags.make true true false.

(** What [levelGround] answers for a pose of [dims]. *)
Definition onLevelGround (pose : Pose.t Z) : Solved.t Z :=
  Solved.make (point 0 0 1 "normal") 130 (flatLegs dims pose).

(** The instance a call of the constructor returned. *)
Definition built (o : option (VirtualHexapod Z)) : VirtualHexapod Z :=
  match o with
  | Some s => s
  | None => shell dims neutralPose
  end.

(** The clone a call of a clone method returned. *)
Definition cloned (o : option (VirtualHexapod Z * VirtualHexapod Z))
  : VirtualHexapod Z :=
  match o with
  | Some (clone, _) => clone
  | None => shell dims neutralPose
  end.

(** The turned pose standing on level ground, and a clone of it moved up
    and to the side. *)
Definition standing : VirtualHexapod Z :=
  built (new (OS := levelGround) (TW := alphaTwist) dims turnedPose Flags.default).

Definition moved : VirtualHexapod Z :=
  cloned (cloneShift (OS := levelGround) (TW := alphaTwist) 10 0 50 standing).

End OnIntegers.

(** The same numbers as reals: the exact arithmetic that JavaScript's
    doubles round. *)
Module OnReals.
Local Open Scope R_scope.

#[export] Instance R_Number : Number R := {
  zero := 0;
  one := 1;
  add := Rplus;
  mul := Rmult;
  strictEq := fun a b => if Req_dec_T a b then true else false
}.

End OnReals.

(** ** More vocabulary *)

Section Frames.
Context {num : Type}.

(** What a leg is apart from its points: its position and its pose
    angles. *)
Definition legFrames (ls : list (Linkage.t num))
  : list (Position * PoseAngles.t num) :=
  map (fun leg => (Linkage.position leg, Linkage.pose leg)) ls.

(** The six positions in their order, each with its angles in the pose. *)
Definition canonicalFrames (pose : Pose.t num)
  : list (Position * PoseAngles.t num) :=
  map (fun position => (position, Pose.at_ pose position)) POSITION_NAMES_LIST.

End Frames.

(** More stand-ins on integer coordinates. *)
Module MoreOnIntegers.
Import OnIntegers.
Local Open Scope Z_scope.

(** A twist solver that knows the simple twist only. *)
Definition simpleOnly : TwistSolver Z := {|
  simpleTwist := simpleTwist (TwistSolver := alphaTwist);
  mightTwist := fun _ => false;
  complexTwist := fun _ _ => 0
|}.

(** A twist solver that always answers a quarter turn through the complex
    twist and none through the simple one. *)
Definition complexOnly : TwistSolver Z := {|
  simpleTwist := fun _ => 0;
  mightTwist := fun _ => true;
  complexTwist := fun _ _ => 90
|}.

Definition noGravityOnly : Flags.t := Flags.make true false false.

(** Twist solvers that agree: the simple twist undoes the alpha the
    ground legs share, and the complex twist, read off the untwisted
    layouts, finds the same quarter turn. *)
Definition agreeingTwist : TwistSolver Z := {|
  simpleTwist := simpleTwist (TwistSolver := alphaTwist);
  mightTwist := mightTwist (TwistSolver := alphaTwist);
  complexTwist := fun _ _ => 90
|}.

(** All six coxias turned a quarter turn the other way. *)
Definition turnedBackPose : Pose.t Z := samePose (angles (-90) 0 0).

End MoreOnIntegers.

(** * Properties *)

Section Properties.
Context {num : Type} {N : Number num}.
Context {HX : HexagonModule num} {LK : LinkageModule num}.
Context {OS : OrientSolver num} {TW : TwistSolver num}.
Context {GE : GeometryModule num} {TP : Templates num}.
Local Open Scope num_scope.
Implicit Type this s : VirtualHexapod num.

(** Unfolding the plumbing of a method. *)
Ltac run := cbv beta iota delta [bind gets deref assign ret lift].

Lemma new_empty_shell dimensions pose flags :
  Flags.hasNoPoints flags = true ->
  new dimensions pose flags = Some (shell dimensions pose).
Proof. intros H. unfold new, constructorBody. rewrite H. reflexivity. Qed.

Lemma isResolved_fields s :
  isResolved s = true ->
  exists ls b axes points,
    legs s = Some ls /\ body s = Some b /\
    localAxes s = Some axes /\ groundContactPoints s = Some points.
Proof.
  unfold isResolved. intros H.
  destruct (legs s) as [ls|]; [|discriminate].
  destruct (body s) as [b|]; [|discriminate].
  destruct (localAxes s) as [axes|]; [|discriminate].
  destruct (groundContactPoints s) as [points|]; [|discriminate].
  exists ls, b, axes, points. repeat split.
Qed.

Lemma twist_resolved this :
  isResolved this = true ->
  _twist this = Some (tt, twistedBy (twistAngle this) this).
Proof.
  intros H. destruct (isResolved_fields _ H) as (ls & b & axes & points & Hl & Hb & Ha & Hg).
  destruct this as [d p a l bo la g]. cbn in Hl, Hb, Ha, Hg. subst.
  reflexivity.
Qed.

Lemma twistedBy_resolved angle s :
  isResolved (twistedBy angle s) = isResolved s.
Proof.
  unfold isResolved, twistedBy, rotated. cbn.
  destruct (legs s), (body s), (localAxes s), (groundContactPoints s); reflexivity.
Qed.

Lemma rotateAndShift_shell dimensions pose solved :
  rotateAndShift (flatBody dimensions) (flatLegs dimensions pose) solved
    (shell dimensions pose)
  = Some (tt, aligned dimensions pose solved).
Proof. reflexivity. Qed.

Lemma aligned_alpha_check dimensions pose (m : Matrix.t num) (h : num) :
  forallb (fun leg => PoseAngles.alpha (Linkage.pose leg) === zero)
    (map (fun leg => Linkage.cloneTrotShift leg m zero zero h)
       (flatLegs dimensions pose))
  = everyAlphaIsZero pose.
Proof. reflexivity. Qed.


Lemma everyAlphaIsZero_spec {EA : ExactArith num} pose :
  everyAlphaIsZero pose = true <-> allAlphaZero pose.
Proof.
  unfold everyAlphaIsZero, allAlphaZero. rewrite forallb_forall. split.
  - intros H position. apply strictEq_spec, H.
    destruct position; cbn; tauto.
  - intros H position _. apply strictEq_spec, H.
Qed.

(** The constructor on the way to the dangling stance. *)
Lemma new_dangling dimensions pose flags :
  Flags.hasNoPoints flags = false ->
  Flags.noGravity flags = true \/ orientation dimensions pose = None ->
  new dimensions pose flags =
  match _danglingHexapod (flatBody dimensions) (flatLegs dimensions pose)
          (Flags.shiftedUp flags) (shell dimensions pose) with
  | Some (_, this) => Some this
  | None => None
  end.
Proof.
  intros Hp Hd. unfold new, constructorBody. rewrite Hp. run.
  change (newHexagon (bodyDimensions (shell dimensions pose)))
    with (flatBody dimensions).
  change (buildLegsList _ _ _) with (flatLegs dimensions pose).
  destruct (Flags.noGravity flags); [reflexivity|].
  destruct Hd as [Hd|Hd]; [discriminate|].
  unfold orientation in Hd. rewrite Hd. reflexivity.
Qed.

(** The constructor on the success path, up to the twist test. *)
Lemma new_solved dimensions pose flags solved :
  Flags.hasNoPoints flags = false ->
  Flags.noGravity flags = false ->
  orientation dimensions pose = Some solved ->
  new dimensions pose flags =
  if everyAlphaIsZero pose then Some (aligned dimensions pose solved)
  else
    match twistAroundZ (flatBody dimensions) solved
            (aligned dimensions pose solved) with
    | Some (_, this) => Some this
    | None => None
    end.
Proof.
  intros Hp Hg Ho. unfold new, constructorBody. rewrite Hp, Hg. run.
  change (newHexagon (bodyDimensions (shell dimensions pose)))
    with (flatBody dimensions).
  change (buildLegsList _ _ _) with (flatLegs dimensions pose).
  unfold orientation in Ho. rewrite Ho.
  rewrite rotateAndShift_shell.
  cbn [legs aligned]. rewrite aligned_alpha_check.
  destruct (everyAlphaIsZero pose); reflexivity.
Qed.

Lemma aligned_resolved dimensions pose solved :
  isResolved (aligned dimensions pose solved) = true.
Proof. reflexivity. Qed.

(** STEP 3 on a resolved stance: the four ways it can go. *)
Lemma twistAroundZ_resolved this solved :
  isResolved this = true ->
  let simple := simpleTwist (Solved.groundLegsNoGravity solved) in
  let complex := complexTwist (referenceLayout (dimensions this)) (solvedLayout solved) in
  let afterSimple :=
    if simple === zero then set_twistAngle simple this
    else twistedBy simple (set_twistAngle simple this) in
  twistAroundZ (flatBody (dimensions this)) solved this =
  Some (tt,
        if mightTwist (Solved.groundLegsNoGravity solved)
        then twistedBy complex (set_twistAngle complex afterSimple)
        else afterSimple).
Proof.
  intros Hr simple complex afterSimple.
  unfold twistAroundZ. run.
  fold simple.
  assert (Hs : isResolved (set_twistAngle simple this) = true) by exact Hr.
  assert (Ha : (if negb (simple === zero) then _twist else (fun this0 => Some (tt, this0)))
                 (set_twistAngle simple this) = Some (tt, afterSimple)).
  { unfold afterSimple. destruct (simple === zero); cbn [negb]; [reflexivity|].
    rewrite twist_resolved by exact Hs. reflexivity. }
  cbn [twistAngle set_twistAngle]. 
  rewrite Ha.
  assert (Hra : isResolved afterSimple = true).
  { unfold afterSimple. destruct (simple === zero); [exact Hs|].
    rewrite twistedBy_resolved. exact Hs. }
  destruct (mightTwist (Solved.groundLegsNoGravity solved)); [|reflexivity].
  assert (Hd : dimensions afterSimple = dimensions this).
  { unfold afterSimple. destruct (simple === zero); reflexivity. }
  unfold legDimensions. rewrite Hd.
  change (map _ (buildLegsList _ DEFAULT_POSE _))
    with (referenceLayout (dimensions this)).
  change (map _ (Solved.groundLegsNoGravity solved)) with (solvedLayout solved).
  fold complex.
  rewrite twist_resolved by exact Hra. reflexivity.
Qed.


(** *** Points, bodies and legs under the trivial transforms *)

Section Arithmetic.
Context {EA : ExactArith num}.

Lemma Vector_cloneShift_zero (v : Vector.t num) :
  Vector.cloneShift v zero zero zero = v.
Proof.
  destruct v as [vx vy vz vn vi]. unfold Vector.cloneShift. cbn.
  now rewrite !add_zero_r.
Qed.

Lemma Vector_newTrot_identity (v : Vector.t num) name id :
  Vector.newTrot v Matrix.identity4 name id
  = Vector.make (Vector.x v) (Vector.y v) (Vector.z v) name id.
Proof.
  unfold Vector.newTrot. cbn.
  now rewrite !mul_zero_r, !mul_one_r, !add_zero_r, !add_zero_l.
Qed.

Lemma Vector_cloneTrot_identity (v : Vector.t num) :
  Vector.cloneTrot v Matrix.identity4 = v.
Proof.
  unfold Vector.cloneTrot. rewrite Vector_newTrot_identity. now destruct v.
Qed.

Lemma Vector_cloneTrotShift_identity (v : Vector.t num) (h : num) :
  Vector.cloneTrotShift v Matrix.identity4 zero zero h = raised h v.
Proof.
  unfold Vector.cloneTrotShift. rewrite Vector_cloneTrot_identity.
  unfold Vector.cloneShift, raised. now rewrite !add_zero_r.
Qed.

End Arithmetic.

Lemma Hexagon_mapPoints_ext (f g : Vector.t num -> Vector.t num) h :
  (forall p, f p = g p) -> Hexagon.mapPoints f h = Hexagon.mapPoints g h.
Proof.
  intros E. unfold Hexagon.mapPoints. rewrite !E.
  now rewrite (map_ext f g E).
Qed.

Lemma Hexagon_mapPoints_id (f : Vector.t num -> Vector.t num) h :
  (forall p, f p = p) -> Hexagon.mapPoints f h = h.
Proof.
  intros E. unfold Hexagon.mapPoints. rewrite !E.
  rewrite (map_ext f (fun p => p) E), map_id. now destruct h.
Qed.

Lemma Linkage_mapPoints_ext (f g : Vector.t num -> Vector.t num) l :
  (forall p, f p = g p) -> Linkage.mapPoints f l = Linkage.mapPoints g l.
Proof.
  intros E. unfold Linkage.mapPoints. rewrite !E.
  now rewrite (map_ext f g E).
Qed.

Lemma Linkage_mapPoints_id (f : Vector.t num -> Vector.t num) l :
  (forall p, f p = p) -> Linkage.mapPoints f l = l.
Proof.
  intros E. unfold Linkage.mapPoints. rewrite !E.
  rewrite (map_ext f (fun p => p) E), map_id. now destruct l.
Qed.

Lemma map_fixes {A : Type} (f : A -> A) (l : list A) :
  (forall a, f a = a) -> map f l = l.
Proof. intros E. rewrite (map_ext f (fun a => a) E). apply map_id. Qed.


(** *** The dangling stance *)

Lemma dangling_flat b l d p :
  _danglingHexapod b l false (shell d p) =
  Some (tt, mkVirtualHexapod d p zero (Some l) (Some b)
              (Some (computeLocalAxes Matrix.identity4)) (Some [])).
Proof. reflexivity. Qed.

Lemma dangling_shiftedUp b l d p :
  _danglingHexapod b l true (shell d p) =
  let height := zero + Dimensions.coxia d + Dimensions.femur d + Dimensions.tibia d in
  Some (tt, mkVirtualHexapod d p zero
              (Some (map (fun leg =>
                            Linkage.cloneTrotShift leg Matrix.identity4 zero zero height) l))
              (Some (Hexagon.cloneTrotShift b Matrix.identity4 zero zero height))
              (Some (computeLocalAxes Matrix.identity4)) (Some [])).
Proof. reflexivity. Qed.

Lemma identity_axes {EA : ExactArith num} :
  axesCoords (computeLocalAxes Matrix.identity4) = axesCoords WORLD_AXES.
Proof.
  unfold axesCoords, computeLocalAxes.
  now rewrite !Vector_newTrot_identity.
Qed.

(** *** The success path in one equation *)

Lemma new_solved_cases d p flags solved :
  Flags.hasNoPoints flags = false ->
  Flags.noGravity flags = false ->
  orientation d p = Some solved ->
  let simple := simpleTwist (Solved.groundLegsNoGravity solved) in
  let complex := complexTwist (referenceLayout d) (solvedLayout solved) in
  let afterSimple :=
    if simple === zero then set_twistAngle simple (aligned d p solved)
    else set_twistAngle simple (twistedBy simple (aligned d p solved)) in
  new d p flags =
  Some (if everyAlphaIsZero p then aligned d p solved
        else if mightTwist (Solved.groundLegsNoGravity solved)
             then set_twistAngle complex (twistedBy complex afterSimple)
             else afterSimple).
Proof.
  intros Hp Hg Ho simple complex afterSimple.
  rewrite new_solved with (solved := solved) by assumption.
  destruct (everyAlphaIsZero p); [reflexivity|].
  pose proof (twistAroundZ_resolved (aligned d p solved) solved
                (aligned_resolved d p solved)) as Ht.
  cbn [dimensions aligned] in Ht. cbv zeta in Ht. rewrite Ht.
  fold simple complex.
  unfold afterSimple.
  destruct (mightTwist _), (simple === zero); reflexivity.
Qed.

Lemma contactCount_twistedBy a (s : VirtualHexapod num) :
  contactCount (twistedBy a s) = contactCount s.
Proof.
  unfold contactCount, twistedBy, rotated. cbn.
  destruct (groundContactPoints s); cbn; [|reflexivity].
  now rewrite length_map.
Qed.

Lemma contactCount_aligned d p solved :
  contactCount (aligned d p solved)
  = Some (List.length (Solved.groundLegsNoGravity solved)).
Proof. unfold contactCount. cbn. now rewrite length_map. Qed.

Lemma new_solved_summary d p flags solved :
  Flags.hasNoPoints flags = false ->
  Flags.noGravity flags = false ->
  orientation d p = Some solved ->
  exists s, new d p flags = Some s /\ isResolved s = true /\
    contactCount s = Some (List.length (Solved.groundLegsNoGravity solved)).
Proof.
  intros Hp Hg Ho. rewrite new_solved_cases with (solved := solved) by assumption.
  eexists. split; [reflexivity|].
  destruct (everyAlphaIsZero p).
  { split; [reflexivity | apply contactCount_aligned]. }
  destruct (mightTwist _), (simpleTwist _ === zero);
    (split; [reflexivity|]);
    unfold contactCount; cbn; now rewrite ?length_map.
Qed.

Lemma new_dangling_summary d p flags :
  Flags.hasNoPoints flags = false ->
  Flags.noGravity flags = true \/ orientation d p = None ->
  exists s, new d p flags = Some s /\ isResolved s = true /\
    contactCount s = Some 0.
Proof.
  intros Hp Hd. rewrite new_dangling by assumption.
  destruct (Flags.shiftedUp flags).
  - rewrite dangling_shiftedUp. eexists. repeat split.
  - rewrite dangling_flat. eexists. repeat split.
Qed.


(** *** Cloning a resolved stance *)

Lemma cloneShift_resolved tx ty tz s :
  isResolved s = true ->
  cloneShift tx ty tz s =
  Some (mkVirtualHexapod (dimensions s) (pose s) zero
          (option_map (map (fun leg => Linkage.cloneShift leg tx ty tz)) (legs s))
          (option_map (fun b => Hexagon.cloneShift b tx ty tz) (body s))
          (localAxes s)
          (option_map (map (fun point => Vector.cloneShift point tx ty tz))
             (groundContactPoints s)),
        s).
Proof.
  intros H. destruct (isResolved_fields _ H) as (ls & b & axes & points & Hl & Hb & Ha & Hg).
  destruct s as [d p a l bo la g]. cbn in Hl, Hb, Ha, Hg. subst.
  reflexivity.
Qed.

Lemma cloneTrot_resolved m s :
  isResolved s = true ->
  cloneTrot m s = Some (set_twistAngle zero (rotated m s), s).
Proof.
  intros H. destruct (isResolved_fields _ H) as (ls & b & axes & points & Hl & Hb & Ha & Hg).
  destruct s as [d p a l bo la g]. cbn in Hl, Hb, Ha, Hg. subst.
  reflexivity.
Qed.

Lemma new_summary d p flags :
  Flags.hasNoPoints flags = false ->
  exists s, new d p flags = Some s /\ isResolved s = true.
Proof.
  intros Hp. destruct (Flags.noGravity flags) eqn:Hg.
  - edestruct new_dangling_summary as (s & E & R & _);
      [exact Hp | left; exact Hg | exists s; split; eassumption].
  - destruct (orientation d p) as [solved|] eqn:Ho.
    + edestruct new_solved_summary as (s & E & R & _);
        [exact Hp | exact Hg | exact Ho | exists s; split; eassumption].
    + edestruct new_dangling_summary as (s & E & R & _);
        [exact Hp | right; exact Ho | exists s; split; eassumption].
Qed.

Lemma rotated_resolved m s : isResolved (rotated m s) = isResolved s.
Proof.
  unfold isResolved, rotated. cbn.
  destruct (legs s), (body s), (localAxes s), (groundContactPoints s); reflexivity.
Qed.

Lemma Reachable_resolved s : Reachable s -> isResolved s = true.
Proof.
  induction 1 as [d p flags s Hp Hn | s m clone s' _ IH Hc | s tx ty tz clone s' _ IH Hc].
  - destruct (@new_summary d p flags Hp) as (s0 & E & R). congruence.
  - rewrite cloneTrot_resolved in Hc by exact IH. injection Hc as <- _.
    change (isResolved (rotated m s) = true). now rewrite rotated_resolved.
  - rewrite cloneShift_resolved in Hc by exact IH. injection Hc as <- _.
    unfold isResolved in *. cbn.
    destruct (legs s), (body s), (localAxes s), (groundContactPoints s);
      try discriminate; reflexivity.
Qed.


(** ** The claims *)

(** The path of C1 as the code runs it.  On the success path, when the simple twist is
    non-zero and a twist is still possible, the twist angle recorded is
    the complex twist, and the legs, the body, the ground contact points
    and the local axes are the AlignAndShift result rotated about the
    world z-axis by the simple twist and then by the complex twist: the
    second rotation is applied to the stance the first one left. *)
Theorem complex_twist_follows_simple_twist {EA : ExactArith num} d p flags solved :
  Flags.hasNoPoints flags = false ->
  Flags.noGravity flags = false ->
  orientation d p = Some solved ->
  everyAlphaIsZero p = false ->
  simpleTwist (Solved.groundLegsNoGravity solved) <> zero ->
  mightTwist (Solved.groundLegsNoGravity solved) = true ->
  let simple := simpleTwist (Solved.groundLegsNoGravity solved) in
  let complex := complexTwist (referenceLayout d) (solvedLayout solved) in
  let expected := twistedBy complex (twistedBy simple (aligned d p solved)) in
  exists s,
    new d p flags = Some s /\
    legs s = legs expected /\
    body s = body expected /\
    groundContactPoints s = groundContactPoints expected /\
    localAxes s = localAxes expected /\
    twistAngle s = complex.
Proof.
  intros Hp Hg Ho Ha Hs Hm simple complex expected.
  rewrite new_solved_cases with (solved := solved) by assumption.
  rewrite Ha, Hm. fold simple complex.
  destruct (simple === zero) eqn:E.
  { apply strictEq_spec in E. contradiction. }
  eexists. split; [reflexivity|]. repeat split.
Qed.

(** C2.  When the orientation solver returns no value and the three flags
    are false, construction succeeds with the dangling stance: no ground
    contact points, twist angle 0, local axes at the coordinates of the
    world axes, body and legs the flat geometry as built. *)
Theorem unstable_pose_dangles {EA : ExactArith num} d p flags :
  Flags.noGravity flags = false ->
  Flags.shiftedUp flags = false ->
  Flags.hasNoPoints flags = false ->
  orientation d p = None ->
  exists s axes,
    new d p flags = Some s /\
    groundContactPoints s = Some [] /\
    twistAngle s = zero /\
    localAxes s = Some axes /\
    axesCoords axes = axesCoords WORLD_AXES /\
    body s = Some (flatBody d) /\
    legs s = Some (flatLegs d p).
Proof.
  intros _ Hs Hp Ho.
  rewrite new_dangling by (assumption || (right; assumption)).
  rewrite Hs, dangling_flat.
  eexists. eexists. split; [reflexivity|].
  cbn [body legs groundContactPoints localAxes twistAngle].
  repeat split. apply identity_axes.
Qed.

(** C3.  A stance built with geometry has 0, 3, 4, 5 or 6 ground contact
    points; it has none exactly when it is the dangling stance (no value
    from the solver, or [noGravity] set); on the success path it has as
    many as the solver returned ground legs, which its contract puts
    between 3 and 6. *)
Theorem ground_contact_count d p flags :
  solverContract ->
  Flags.hasNoPoints flags = false ->
  exists s n,
    new d p flags = Some s /\
    contactCount s = Some n /\
    (n = 0 \/ n = 3 \/ n = 4 \/ n = 5 \/ n = 6) /\
    (n = 0 <-> Flags.noGravity flags = true \/ orientation d p = None) /\
    (forall solved,
       Flags.noGravity flags = false ->
       orientation d p = Some solved ->
       n = List.length (Solved.groundLegsNoGravity solved) /\ 3 <= n <= 6).
Proof.
  intros Hc Hp.
  assert (dangling :
    Flags.noGravity flags = true \/ orientation d p = None ->
    exists s n,
      new d p flags = Some s /\
      contactCount s = Some n /\
      (n = 0 \/ n = 3 \/ n = 4 \/ n = 5 \/ n = 6) /\
      (n = 0 <-> Flags.noGravity flags = true \/ orientation d p = None) /\
      (forall solved,
         Flags.noGravity flags = false ->
         orientation d p = Some solved ->
         n = List.length (Solved.groundLegsNoGravity solved) /\ 3 <= n <= 6)).
  { intros Hd.
    destruct (@new_dangling_summary d p flags Hp Hd) as (s & E & _ & Hn).
    exists s, 0. split; [exact E|]. split; [exact Hn|].
    split; [now left|]. split; [tauto|].
    intros solved Hg Ho. destruct Hd as [Hd|Hd]; congruence. }
  destruct (Flags.noGravity flags) eqn:Hg; [apply dangling; now left|].
  destruct (orientation d p) as [solved|] eqn:Ho; [|apply dangling; now right].
  destruct (@new_solved_summary d p flags solved Hp Hg Ho) as (s & E & _ & Hn).
  pose proof (Hc _ _ Ho) as Hb.
  exists s, (List.length (Solved.groundLegsNoGravity solved)).
  split; [exact E|]. split; [exact Hn|].
  split; [lia|]. split.
  - split; [lia|]. intros [H|H]; discriminate.
  - intros solved' _ H. injection H as <-. split; [reflexivity | exact Hb].
Qed.

(** C4.  When all six alpha angles are exactly 0, the stance built on the
    success path is the AlignAndShift result with twist angle 0, whatever
    beta and gamma are, and whatever the twist solvers would compute. *)
Theorem zero_alpha_never_twists {EA : ExactArith num} d p flags solved :
  allAlphaZero p ->
  Flags.hasNoPoints flags = false ->
  Flags.noGravity flags = false ->
  orientation d p = Some solved ->
  new d p flags = Some (aligned d p solved) /\
  twistAngle (aligned d p solved) = zero /\
  forall TW' : TwistSolver num,
    new (TW := TW') d p flags = new d p flags.
Proof.
  intros Ha Hp Hg Ho. apply everyAlphaIsZero_spec in Ha.
  split; [|split; [reflexivity|]].
  - rewrite new_solved with (solved := solved) by assumption. now rewrite Ha.
  - intros TW'. unfold new, constructorBody. rewrite Hp, Hg.
    cbv beta iota delta [bind gets deref assign ret lift].
    change (newHexagon (bodyDimensions (shell d p))) with (flatBody d).
    change (buildLegsList _ _ _) with (flatLegs d p).
    unfold orientation in Ho. rewrite Ho, rotateAndShift_shell.
    cbn [legs aligned]. rewrite aligned_alpha_check, Ha. reflexivity.
Qed.


(** C5.  Every reachable stance holds a body, and [distanceFromGround] is
    the z-coordinate of that body's centre of gravity: the getter reads
    the stored body, so this is as true of a clone as of the stance the
    constructor built. *)
Theorem distanceFromGround_is_cog_height s :
  Reachable s ->
  exists b,
    body s = Some b /\
    distanceFromGround s = Some (Vector.z (Hexagon.cog b)).
Proof.
  intros H. apply Reachable_resolved in H.
  destruct (isResolved_fields _ H) as (_ & b & _ & _ & _ & Hb & _).
  exists b. split; [exact Hb|]. unfold distanceFromGround. now rewrite Hb.
Qed.

(** C6.  On a resolved stance, [cloneShift(0, 0, 0)] returns a stance whose
    body, legs, ground contact points and local axes are those of the
    original. *)
Theorem cloneShift_zero_is_identity {EA : ExactArith num} s :
  isResolved s = true ->
  exists clone,
    cloneShift zero zero zero s = Some (clone, s) /\
    body clone = body s /\
    legs clone = legs s /\
    groundContactPoints clone = groundContactPoints s /\
    localAxes clone = localAxes s.
Proof.
  intros H. rewrite cloneShift_resolved by exact H.
  destruct (isResolved_fields _ H) as (ls & b & axes & points & Hl & Hb & Ha & Hg).
  eexists. split; [reflexivity|]. cbn. rewrite Hl, Hb, Hg. cbn.
  repeat split; f_equal.
  - apply Hexagon_mapPoints_id, Vector_cloneShift_zero.
  - apply map_fixes. intros leg.
    apply Linkage_mapPoints_id, Vector_cloneShift_zero.
  - apply map_fixes, Vector_cloneShift_zero.
Qed.

(** C7.  On a resolved stance, [cloneTrot] with the identity matrix returns
    a stance whose body, legs, ground contact points and local axes are
    those of the original (numbers being exact). *)
Theorem cloneTrot_identity_is_identity {EA : ExactArith num} s :
  isResolved s = true ->
  exists clone,
    cloneTrot Matrix.identity4 s = Some (clone, s) /\
    body clone = body s /\
    legs clone = legs s /\
    groundContactPoints clone = groundContactPoints s /\
    localAxes clone = localAxes s.
Proof.
  intros H. rewrite cloneTrot_resolved by exact H.
  destruct (isResolved_fields _ H) as (ls & b & axes & points & Hl & Hb & Ha & Hg).
  eexists. split; [reflexivity|]. cbn. rewrite Hl, Hb, Hg, Ha. cbn.
  repeat split; f_equal.
  - apply Hexagon_mapPoints_id, Vector_cloneTrot_identity.
  - apply map_fixes. intros leg.
    apply Linkage_mapPoints_id, Vector_cloneTrot_identity.
  - apply map_fixes, Vector_cloneTrot_identity.
  - unfold transformLocalAxes. rewrite !Vector_cloneTrot_identity.
    now destruct axes.
Qed.

(** C8.  A dangling stance built with [shiftedUp] set has the flat body and
    the flat legs raised along world z by coxia + femur + tibia, no ground
    contact points, and local axes at the coordinates of the world axes. *)
Theorem shiftedUp_raises_by_leg_length {EA : ExactArith num} d p flags :
  Flags.hasNoPoints flags = false ->
  Flags.shiftedUp flags = true ->
  Flags.noGravity flags = true \/ orientation d p = None ->
  exists s axes,
    new d p flags = Some s /\
    body s = Some (Hexagon.mapPoints (raised (legLength d)) (flatBody d)) /\
    legs s = Some (map (Linkage.mapPoints (raised (legLength d))) (flatLegs d p)) /\
    groundContactPoints s = Some [] /\
    localAxes s = Some axes /\
    axesCoords axes = axesCoords WORLD_AXES.
Proof.
  intros Hp Hs Hd. rewrite new_dangling by assumption.
  rewrite Hs, dangling_shiftedUp. cbv zeta. rewrite add_zero_l.
  fold (legLength d).
  eexists. eexists. split; [reflexivity|].
  cbn [body legs groundContactPoints localAxes].
  repeat split; try apply identity_axes; f_equal.
  - apply Hexagon_mapPoints_ext. intros q.
    apply Vector_cloneTrotShift_identity.
  - apply map_ext. intros leg.
    apply Linkage_mapPoints_ext. intros q.
    apply Vector_cloneTrotShift_identity.
Qed.

(** C9.  With [hasNoPoints] set the constructor returns at once: the
    instance carries the dimensions and the pose it was given and twist
    angle 0, its body, legs, local axes and ground contact points are not
    assigned, and none of the imported modules has a say in the result. *)
Theorem hasNoPoints_gives_empty_shell d p flags :
  Flags.hasNoPoints flags = true ->
  exists s,
    new d p flags = Some s /\
    dimensions s = d /\ pose s = p /\ twistAngle s = zero /\
    body s = None /\ legs s = None /\
    localAxes s = None /\ groundContactPoints s = None /\
    forall (HX' : HexagonModule num) (LK' : LinkageModule num)
           (OS' : OrientSolver num) (TW' : TwistSolver num)
           (GE' : GeometryModule num) (TP' : Templates num),
      new (HX := HX') (LK := LK') (OS := OS') (TW := TW') (GE := GE') (TP := TP')
          d p flags = Some s.
Proof.
  intros H. exists (shell d p).
  split; [now apply new_empty_shell|]. repeat split.
  intros. unfold new, constructorBody. now rewrite H.
Qed.

(** C10.  On a resolved stance, whatever the shift, [cloneShift] leaves
    the original as it was and returns a stance with the very local axes
    of the original, and with its dimensions and pose. *)
Theorem cloneShift_keeps_frame s tx ty tz :
  isResolved s = true ->
  exists clone s',
    cloneShift tx ty tz s = Some (clone, s') /\
    s' = s /\
    localAxes clone = localAxes s /\
    dimensions clone = dimensions s /\
    pose clone = pose s.
Proof.
  intros H. rewrite cloneShift_resolved by exact H.
  eexists. eexists. split; [reflexivity|]. repeat split.
Qed.

End Properties.

(** * The properties at work on concrete numbers *)

Section Concrete.
Import OnIntegers.
Local Open Scope Z_scope.

(** The laws of [ExactArith] hold of the integers and of the reals. *)
Lemma Z_ExactArith : ExactArith Z.
Proof.
  split; cbn.
  - intros a b. apply Z.eqb_eq.
  - apply Z.add_0_l.
  - apply Z.add_0_r.
  - apply Z.mul_0_r.
  - apply Z.mul_1_r.
Qed.

Lemma R_ExactArith : @ExactArith R OnReals.R_Number.
Proof.
  split; cbn.
  - intros a b. destruct (Req_dec_T a b); split; congruence.
  - apply Rplus_0_l.
  - apply Rplus_0_r.
  - apply Rmult_0_r.
  - apply Rmult_1_r.
Qed.

(** The stand-in solver keeps the contract of the orientation solver. *)
Lemma levelGround_contract : solverContract (OS := levelGround).
Proof.
  intros ls solved.
  change (computeOrientationProperties ls)
    with (match ls with
          | [] => None
          | leg :: _ =>
              if Nat.leb 3 (List.length ls) && Nat.leb (List.length ls) 6 then
                Some (Solved.make (point 0 0 1 "normal")
                        (- Vector.z (Linkage.maybeGroundContactPoint leg)) ls)
              else None
          end).
  destruct ls as [|leg rest]; [discriminate|].
  destruct (Nat.leb 3 (List.length (leg :: rest))
            && Nat.leb (List.length (leg :: rest)) 6) eqn:E; [|discriminate].
  intros H. injection H as <-. cbn [Solved.groundLegsNoGravity].
  apply andb_true_iff in E. destruct E as [E1 E2].
  apply Nat.leb_le in E1, E2. lia.
Qed.

(** The scenario of the specification, with the stand-ins: all angles
    zero, six contact points, no twist; the height is the tibia of the
    stand-in leg. *)
Example neutral_stance_has_six_contacts :
  exists s,
    new (OS := levelGround) (TW := alphaTwist) dims neutralPose Flags.default = Some s /\
    contactCount s = Some 6%nat /\
    twistAngle s = 0 /\
    distanceFromGround s = Some 130.
Proof. eexists. repeat split. Qed.

(** The turned pose: the body ends a quarter turn clockwise from the flat
    hexagon, and the twist angle reads 0. *)
Example standing_is_turned_back :
  option_map (fun b => map Vector.coords (Hexagon.verticesList b)) (body standing)
  = Some [(0, -100, 130); (100, -100, 130); (100, 100, 130);
          (0, 100, 130); (-100, 100, 130); (-100, -100, 130)]
  /\ twistAngle standing = 0.
Proof. split; reflexivity. Qed.

(** What the AlignAndShift body rotated by the complex twist alone would
    be for the turned pose: the flat hexagon, lifted. *)
Example turned_pose_complex_twist_alone :
  option_map (fun b => map Vector.coords (Hexagon.verticesList b))
    (body (twistedBy 0 (aligned dims turnedPose (onLevelGround turnedPose))))
  = Some [(100, 0, 130); (100, 100, 130); (-100, 100, 130);
          (-100, 0, 130); (-100, -100, 130); (100, -100, 130)].
Proof. reflexivity. Qed.

(** What the stand-in solvers answer for the turned pose. *)
Example turned_pose_twists :
  orientation (OS := levelGround) dims turnedPose = Some (onLevelGround turnedPose) /\
  everyAlphaIsZero turnedPose = false /\
  simpleTwist (TwistSolver := alphaTwist)
    (Solved.groundLegsNoGravity (onLevelGround turnedPose)) = -90 /\
  mightTwist (TwistSolver := alphaTwist)
    (Solved.groundLegsNoGravity (onLevelGround turnedPose)) = true /\
  complexTwist (TwistSolver := alphaTwist)
    (referenceLayout dims) (solvedLayout (onLevelGround turnedPose)) = 0.
Proof. repeat split. Qed.

(** The same at the turned pose on level ground, where the simple twist
    is -90 and the complex twist 0. *)
Lemma complex_twist_follows_simple_twist_witness :
  let solved := onLevelGround turnedPose in
  let simple :=
    simpleTwist (TwistSolver := alphaTwist) (Solved.groundLegsNoGravity solved) in
  let complex :=
    complexTwist (TwistSolver := alphaTwist) (referenceLayout dims)
      (solvedLayout solved) in
  let expected := twistedBy complex (twistedBy simple (aligned dims turnedPose solved)) in
  exists s,
    new (OS := levelGround) (TW := alphaTwist) dims turnedPose Flags.default = Some s /\
    legs s = legs expected /\
    body s = body expected /\
    groundContactPoints s = groundContactPoints expected /\
    localAxes s = localAxes expected /\
    twistAngle s = complex.
Proof.
  intros solved.
  apply (complex_twist_follows_simple_twist (OS := levelGround) (TW := alphaTwist)
           (EA := Z_ExactArith) dims turnedPose Flags.default (solved := solved)).
  - reflexivity.
  - reflexivity.
  - reflexivity.
  - reflexivity.
  - vm_compute. discriminate.
  - reflexivity.
Defined.

(** The reading of the twist step under which the complex twist stands
    alone fails of the code: for the turned pose the body is not the
    AlignAndShift body rotated by the complex twist alone. *)
Lemma complex_twist_alone_fails :
  ~ complexTwistAlone (OS := levelGround) (TW := alphaTwist)
      dims turnedPose Flags.default.
Proof.
  intros H.
  destruct (H (onLevelGround turnedPose)) as (s & E & _ & Hb & _);
    try reflexivity.
  - vm_compute. discriminate.
  - vm_compute in E. injection E as <-. vm_compute in Hb. discriminate.
Qed.

(** C2, witness: the turned pose with a solver that finds no support. *)
Lemma unstable_pose_dangles_witness :
  orientation (OS := noSupport) dims turnedPose = None /\
  exists s axes,
    new (OS := noSupport) (TW := alphaTwist) dims turnedPose Flags.default = Some s /\
    groundContactPoints s = Some [] /\
    twistAngle s = 0 /\
    localAxes s = Some axes /\
    axesCoords axes = ((1, 0, 0), (0, 1, 0), (0, 0, 1)) /\
    body s = Some (flatBody dims) /\
    legs s = Some (flatLegs dims turnedPose).
Proof.
  split; [reflexivity|].
  apply (unstable_pose_dangles (OS := noSupport) (TW := alphaTwist)
           (EA := Z_ExactArith) dims turnedPose Flags.default);
    reflexivity.
Defined.

(** C3, witness: the turned pose on level ground. *)
Lemma ground_contact_count_witness :
  solverContract (OS := levelGround) /\
  exists s n,
    new (OS := levelGround) (TW := alphaTwist) dims turnedPose Flags.default = Some s /\
    contactCount s = Some n /\
    (n = 0 \/ n = 3 \/ n = 4 \/ n = 5 \/ n = 6)%nat /\
    (n = 0%nat <->
     Flags.noGravity Flags.default = true \/
     orientation (OS := levelGround) dims turnedPose = None) /\
    (forall solved,
       Flags.noGravity Flags.default = false ->
       orientation (OS := levelGround) dims turnedPose = Some solved ->
       n = List.length (Solved.groundLegsNoGravity solved) /\ (3 <= n <= 6)%nat).
Proof.
  split; [exact levelGround_contract|].
  apply (ground_contact_count (OS := levelGround) (TW := alphaTwist)
           dims turnedPose Flags.default).
  - exact levelGround_contract.
  - reflexivity.
Defined.

(** C4, witness: alpha at rest, beta 30 and gamma -45 on every leg. *)
Lemma zero_alpha_never_twists_witness :
  allAlphaZero bentPose /\
  orientation (OS := levelGround) dims bentPose = Some (onLevelGround bentPose) /\
  new (OS := levelGround) (TW := alphaTwist) dims bentPose Flags.default
  = Some (aligned dims bentPose (onLevelGround bentPose)) /\
  twistAngle (aligned dims bentPose (onLevelGround bentPose)) = 0 /\
  forall TW' : TwistSolver Z,
    new (OS := levelGround) (TW := TW') dims bentPose Flags.default
    = new (OS := levelGround) (TW := alphaTwist) dims bentPose Flags.default.
Proof.
  assert (Ha : allAlphaZero bentPose) by (intros []; reflexivity).
  split; [exact Ha|]. split; [reflexivity|].
  apply (zero_alpha_never_twists (OS := levelGround) (TW := alphaTwist)
           (EA := Z_ExactArith) dims Flags.default
           (solved := onLevelGround bentPose) Ha);
    reflexivity.
Defined.

(** C5, witness: a shifted clone of a constructed stance. *)
Lemma distanceFromGround_is_cog_height_witness :
  Reachable (OS := levelGround) (TW := alphaTwist) moved /\
  exists b,
    body moved = Some b /\
    distanceFromGround moved = Some (Vector.z (Hexagon.cog b)).
Proof.
  assert (Hr : Reachable (OS := levelGround) (TW := alphaTwist) moved).
  { apply Reachable_cloneShift with (s := standing) (tx := 10) (ty := 0)
      (tz := 50) (s' := standing); [|vm_compute; reflexivity].
    apply Reachable_new with (dimensions := dims) (pose := turnedPose)
      (flags := Flags.default); vm_compute; reflexivity. }
  split; [exact Hr|].
  exact (distanceFromGround_is_cog_height (OS := levelGround) (TW := alphaTwist) Hr).
Defined.

(** C6, witness: the turned pose standing on level ground. *)
Lemma cloneShift_zero_is_identity_witness :
  isResolved standing = true /\
  exists clone,
    cloneShift (OS := levelGround) (TW := alphaTwist) 0 0 0 standing
    = Some (clone, standing) /\
    body clone = body standing /\
    legs clone = legs standing /\
    groundContactPoints clone = groundContactPoints standing /\
    localAxes clone = localAxes standing.
Proof.
  split; [reflexivity|].
  apply (cloneShift_zero_is_identity (OS := levelGround) (TW := alphaTwist) (EA := Z_ExactArith)).
  reflexivity.
Defined.

(** C7, witness: the turned pose standing on level ground. *)
Lemma cloneTrot_identity_is_identity_witness :
  isResolved standing = true /\
  exists clone,
    cloneTrot (OS := levelGround) (TW := alphaTwist) Matrix.identity4 standing
    = Some (clone, standing) /\
    body clone = body standing /\
    legs clone = legs standing /\
    groundContactPoints clone = groundContactPoints standing /\
    localAxes clone = localAxes standing.
Proof.
  split; [reflexivity|].
  apply (cloneTrot_identity_is_identity (OS := levelGround) (TW := alphaTwist) (EA := Z_ExactArith)).
  reflexivity.
Defined.

(** C8, witness: [noGravity] and [shiftedUp] set; the legs are 50 + 80 +
    130 long. *)
Lemma shiftedUp_raises_by_leg_length_witness :
  legLength dims = 260 /\
  exists s axes,
    new (OS := levelGround) (TW := alphaTwist) dims turnedPose noGravityShiftedUp
    = Some s /\
    body s = Some (Hexagon.mapPoints (raised 260) (flatBody dims)) /\
    legs s = Some (map (Linkage.mapPoints (raised 260)) (flatLegs dims turnedPose)) /\
    groundContactPoints s = Some [] /\
    localAxes s = Some axes /\
    axesCoords axes = ((1, 0, 0), (0, 1, 0), (0, 0, 1)).
Proof.
  split; [reflexivity|].
  apply (shiftedUp_raises_by_leg_length (OS := levelGround) (TW := alphaTwist) (EA := Z_ExactArith)).
  - reflexivity.
  - reflexivity.
  - left. reflexivity.
Defined.

(** C9, witness: only [hasNoPoints] set. *)
Lemma hasNoPoints_gives_empty_shell_witness :
  exists s,
    new (OS := levelGround) (TW := alphaTwist) dims turnedPose Flags.onlyHasNoPoints
    = Some s /\
    dimensions s = dims /\ pose s = turnedPose /\ twistAngle s = 0 /\
    body s = None /\ legs s = None /\
    localAxes s = None /\ groundContactPoints s = None /\
    forall (HX' : HexagonModule Z) (LK' : LinkageModule Z)
           (OS' : OrientSolver Z) (TW' : TwistSolver Z)
           (GE' : GeometryModule Z) (TP' : Templates Z),
      new (HX := HX') (LK := LK') (OS := OS') (TW := TW') (GE := GE') (TP := TP')
          dims turnedPose Flags.onlyHasNoPoints = Some s.
Proof.
  exact (hasNoPoints_gives_empty_shell (OS := levelGround) (TW := alphaTwist)
           dims turnedPose Flags.onlyHasNoPoints eq_refl).
Defined.

(** C10, witness: the turned pose standing on level ground, shifted by
    (10, 0, 50). *)
Lemma cloneShift_keeps_frame_witness :
  isResolved standing = true /\
  exists clone s',
    cloneShift (OS := levelGround) (TW := alphaTwist) 10 0 50 standing
    = Some (clone, s') /\
    s' = standing /\
    localAxes clone = localAxes standing /\
    dimensions clone = dimensions standing /\
    pose clone = pose standing.
Proof.
  split; [reflexivity|].
  apply (cloneShift_keeps_frame (OS := levelGround) (TW := alphaTwist)).
  reflexivity.
Defined.

End Concrete.

(** * Further properties of the class *)

Section Further.
Context {num : Type} {N : Number num}.
Context {HX : HexagonModule num} {LK : LinkageModule num}.
Context {OS : OrientSolver num} {TW : TwistSolver num}.
Context {GE : GeometryModule num} {TP : Templates num}.
Local Open Scope num_scope.
Implicit Type s : VirtualHexapod num.

(** *** Legs keep their frame *)

Lemma legFrames_mapPoints (f : Vector.t num -> Vector.t num) ls :
  legFrames (map (Linkage.mapPoints f) ls) = legFrames ls.
Proof. unfold legFrames. rewrite map_map. reflexivity. Qed.

Lemma legFrames_flatLegs d p :
  legFrames (flatLegs d p) = canonicalFrames p.
Proof. reflexivity. Qed.

Lemma legFrames_length (ls : list (Linkage.t num)) p :
  legFrames ls = canonicalFrames p -> List.length ls = 6.
Proof.
  intros H. apply (f_equal (@List.length _)) in H.
  unfold legFrames, canonicalFrames in H. now rewrite !length_map in H.
Qed.

Lemma rotated_legFrames m s :
  option_map legFrames (legs (rotated m s)) = option_map legFrames (legs s).
Proof.
  unfold rotated. cbn [legs]. destruct (legs s) as [ls|]; [|reflexivity].
  cbn [option_map]. f_equal. apply (legFrames_mapPoints _ ls).
Qed.

Lemma new_legFrames d p flags :
  Flags.hasNoPoints flags = false ->
  exists s,
    new d p flags = Some s /\ dimensions s = d /\ pose s = p /\
    option_map legFrames (legs s) = Some (canonicalFrames p).
Proof.
  intros Hp.
  assert (flat : option_map legFrames (Some (flatLegs d p)) = Some (canonicalFrames p))
    by reflexivity.
  assert (dangle :
    Flags.noGravity flags = true \/ orientation d p = None ->
    exists s,
      new d p flags = Some s /\ dimensions s = d /\ pose s = p /\
      option_map legFrames (legs s) = Some (canonicalFrames p)).
  { intros Hd. rewrite new_dangling by assumption.
    destruct (Flags.shiftedUp flags).
    - rewrite dangling_shiftedUp. eexists. split; [reflexivity|].
      cbn [dimensions pose legs option_map]. repeat split.
    - rewrite dangling_flat. eexists. repeat split. }
  destruct (Flags.noGravity flags) eqn:Hg; [apply dangle; now left|].
  destruct (orientation d p) as [solved|] eqn:Ho; [|apply dangle; now right].
  rewrite new_solved_cases with (solved := solved) by assumption.
  eexists. split; [reflexivity|].
  destruct (everyAlphaIsZero p); [repeat split|].
  destruct (mightTwist _), (simpleTwist _ === zero); repeat split.
Qed.

(** X1.  Every reachable stance has six legs, in the order of
    [POSITION_NAMES_LIST], each with the angles the stance's pose gives
    its position: neither the solver steps nor a clone drops, adds or
    reorders a leg. *)
Theorem reachable_legs_are_canonical s :
  Reachable s ->
  exists ls,
    legs s = Some ls /\
    List.length ls = 6 /\
    legFrames ls = canonicalFrames (pose s).
Proof.
  intros H.
  assert (F : option_map legFrames (legs s) = Some (canonicalFrames (pose s))).
  { induction H as [d p flags s Hp Hn | s m clone s' Hr IH Hc
                    | s tx ty tz clone s' Hr IH Hc].
    - destruct (@new_legFrames d p flags Hp) as (s0 & E & _ & Hq & Hl).
      rewrite E in Hn. injection Hn as <-. now rewrite Hq.
    - rewrite cloneTrot_resolved in Hc by (apply Reachable_resolved; exact Hr).
      injection Hc as <- _.
      change (legs (set_twistAngle zero (rotated m s))) with (legs (rotated m s)).
      rewrite rotated_legFrames. exact IH.
    - rewrite cloneShift_resolved in Hc by (apply Reachable_resolved; exact Hr).
      injection Hc as <- _. cbn [legs pose].
      destruct (legs s) as [ls|]; [|discriminate].
      cbn [option_map] in *. rewrite <- IH. f_equal.
      apply (legFrames_mapPoints _ ls). }
  destruct (legs s) as [ls|]; [|discriminate].
  cbn [option_map] in F. injection F as F.
  exists ls. split; [reflexivity|]. split; [|exact F].
  eapply legFrames_length. exact F.
Qed.

(** *** The constructor assigns before it reads *)

(** X2.  Given a flags object, a dimensions object and a pose with its
    six entries, no statement of the constructor reads a field of [this]
    before it is assigned: on every path, the two [_twist] calls
    included, the fields read are there.  The instance carries the
    dimensions and the pose it was given, and has legs, body, local axes
    and ground contact points all assigned exactly when [hasNoPoints] is
    not set.  (A call with [null] for the flags, or without dimensions,
    throws before any of this; such arguments are outside the types
    here.) *)
Theorem constructor_assigns_before_it_reads d p flags :
  exists s,
    new d p flags = Some s /\
    dimensions s = d /\
    pose s = p /\
    isResolved s = negb (Flags.hasNoPoints flags).
Proof.
  destruct (Flags.hasNoPoints flags) eqn:Hp.
  - exists (shell d p). split; [now apply new_empty_shell|]. repeat split.
  - destruct (@new_legFrames d p flags Hp) as (s & E & Hd & Hq & _).
    destruct (new_summary d p flags Hp) as (s0 & E0 & R).
    assert (s0 = s) by congruence. subst s0.
    exists s. split; [exact E|]. split; [exact Hd|]. split; [exact Hq|exact R].
Qed.

(** *** When the clone methods throw *)

(** X3.  [cloneTrot] returns exactly on the stances whose legs, body,
    local axes and ground contact points are all assigned; [cloneShift]
    does not read into the local axes, and returns exactly when legs, body
    and ground contact points are assigned.  On any other stance they
    throw. *)
Theorem clone_methods_throw_without_geometry s :
  (forall m, cloneTrot m s <> None <-> isResolved s = true) /\
  (forall tx ty tz,
     cloneShift tx ty tz s <> None <->
     legs s <> None /\ body s <> None /\ groundContactPoints s <> None).
Proof.
  split.
  - intros m. unfold cloneTrot, isResolved, bind, gets, deref, lift, ret, new.
    cbn.
    destruct (body s), (legs s), (groundContactPoints s), (localAxes s);
      cbn; split; intros H; congruence.
  - intros tx ty tz. unfold cloneShift, bind, gets, deref, lift, ret, new.
    cbn.
    destruct (body s), (legs s), (groundContactPoints s);
      cbn; split; intros H; try congruence; try tauto;
      repeat split; congruence.
Qed.

(** X4.  The instance built with [hasNoPoints] offers none of the
    geometry: both of the getters that read the body throw on it, and so
    does each clone method. *)
Theorem empty_shell_has_no_geometry d p flags m tx ty tz :
  Flags.hasNoPoints flags = true ->
  exists s,
    new d p flags = Some s /\
    distanceFromGround s = None /\
    cogProjection s = None /\
    cloneTrot m s = None /\
    cloneShift tx ty tz s = None.
Proof.
  intros H. exists (shell d p). split; [now apply new_empty_shell|].
  repeat split.
Qed.

(** *** What a clone keeps and what it loses *)

(** X5.  A clone is a new shell filled with transformed geometry: it has
    the dimensions and the pose of the original, but its twist angle is 0
    and [hasTwisted] is false, whatever the twist angle of the original;
    the original itself is left as it was.  This holds of [cloneTrot] and
    of [cloneShift]. *)
Theorem clones_forget_the_twist {EA : ExactArith num} s m tx ty tz :
  isResolved s = true ->
  exists turned shifted,
    cloneTrot m s = Some (turned, s) /\
    cloneShift tx ty tz s = Some (shifted, s) /\
    twistAngle turned = zero /\ hasTwisted turned = false /\
    twistAngle shifted = zero /\ hasTwisted shifted = false /\
    dimensions turned = dimensions s /\ pose turned = pose s /\
    dimensions shifted = dimensions s /\ pose shifted = pose s.
Proof.
  intros H.
  rewrite cloneTrot_resolved by exact H.
  rewrite cloneShift_resolved by exact H.
  assert (Z0 : (zero === zero) = true) by now apply strictEq_spec.
  eexists. eexists. split; [reflexivity|]. split; [reflexivity|].
  unfold hasTwisted. cbn [twistAngle set_twistAngle rotated dimensions pose].
  rewrite Z0. repeat split.
Qed.

Lemma cloneTrot_contactCount s m clone s' :
  cloneTrot m s = Some (clone, s') -> contactCount clone = contactCount s.
Proof.
  unfold contactCount, cloneTrot, bind, gets, deref, lift, ret, new. cbn.
  destruct (body s), (legs s), (groundContactPoints s) as [points|],
    (localAxes s); cbn; try discriminate.
  intros H. injection H as <- _. cbn.
  now rewrite length_map.
Qed.

Lemma cloneShift_contactCount s tx ty tz clone s' :
  cloneShift tx ty tz s = Some (clone, s') -> contactCount clone = contactCount s.
Proof.
  unfold contactCount, cloneShift, bind, gets, deref, lift, ret, new. cbn.
  destruct (body s), (legs s), (groundContactPoints s) as [points|];
    cbn; try discriminate.
  intros H. injection H as <- _. cbn.
  now rewrite length_map.
Qed.

(** X6.  Under the contract of the orientation solver every reachable
    stance has 0, 3, 4, 5 or 6 ground contact points, and cloning keeps
    the number: whatever [cloneTrot] or [cloneShift] returns on the stance
    has as many ground contact points as the stance. *)
Theorem reachable_contact_count s :
  solverContract ->
  Reachable s ->
  exists n,
    contactCount s = Some n /\
    (n = 0 \/ n = 3 \/ n = 4 \/ n = 5 \/ n = 6) /\
    (forall m clone s',
       cloneTrot m s = Some (clone, s') -> contactCount clone = Some n) /\
    (forall tx ty tz clone s',
       cloneShift tx ty tz s = Some (clone, s') -> contactCount clone = Some n).
Proof.
  intros Hc H.
  assert (B : exists n,
            contactCount s = Some n /\ (n = 0 \/ n = 3 \/ n = 4 \/ n = 5 \/ n = 6)).
  { induction H as [d p flags s Hp Hn | s m clone s' Hr IH Hcl
                    | s tx ty tz clone s' Hr IH Hcl].
    - destruct (Flags.noGravity flags) eqn:Hg.
      + destruct (new_dangling_summary d p flags Hp (or_introl Hg))
          as (s0 & E & _ & Hk).
        rewrite E in Hn. injection Hn as <-. exists 0. split; [exact Hk | now left].
      + destruct (orientation d p) as [solved|] eqn:Ho.
        * destruct (new_solved_summary d p flags Hp Hg Ho) as (s0 & E & _ & Hk).
          rewrite E in Hn. injection Hn as <-.
          pose proof (Hc _ _ Ho) as Hb.
          exists (List.length (Solved.groundLegsNoGravity solved)).
          split; [exact Hk | lia].
        * destruct (new_dangling_summary d p flags Hp (or_intror Ho))
            as (s0 & E & _ & Hk).
          rewrite E in Hn. injection Hn as <-. exists 0. split; [exact Hk | now left].
    - destruct IH as (n & Hk & Hn). exists n. split; [|exact Hn].
      rewrite <- Hk. exact (cloneTrot_contactCount _ _ Hcl).
    - destruct IH as (n & Hk & Hn). exists n. split; [|exact Hn].
      rewrite <- Hk. exact (cloneShift_contactCount _ _ _ _ Hcl). }
  destruct B as (n & Hk & Hn). exists n.
  split; [exact Hk|]. split; [exact Hn|]. split.
  - intros m clone s' E. rewrite <- Hk. exact (cloneTrot_contactCount _ _ E).
  - intros tx ty tz clone s' E. rewrite <- Hk.
    exact (cloneShift_contactCount _ _ _ _ E).
Qed.

(** *** The twist angle *)

(** X7.  The twist angle of a new instance is 0 on every path that ends
    before STEP 3 (an empty shell, a dangling stance, a pose whose alphas
    are all 0); past it, it is the complex twist when [mightTwist] holds
    and the simple twist otherwise. *)
Theorem twistAngle_of_new d p flags :
  exists s,
    new d p flags = Some s /\
    twistAngle s =
    if Flags.hasNoPoints flags || Flags.noGravity flags then zero
    else
      match orientation d p with
      | None => zero
      | Some solved =>
          if everyAlphaIsZero p then zero
          else if mightTwist (Solved.groundLegsNoGravity solved)
               then complexTwist (referenceLayout d) (solvedLayout solved)
               else simpleTwist (Solved.groundLegsNoGravity solved)
      end.
Proof.
  destruct (Flags.hasNoPoints flags) eqn:Hp.
  { exists (shell d p). split; [now apply new_empty_shell | reflexivity]. }
  assert (dangle :
    Flags.noGravity flags = true \/ orientation d p = None ->
    exists s, new d p flags = Some s /\ twistAngle s = zero).
  { intros Hd. rewrite new_dangling by assumption.
    destruct (Flags.shiftedUp flags).
    - rewrite dangling_shiftedUp. eexists. split; reflexivity.
    - rewrite dangling_flat. eexists. split; reflexivity. }
  destruct (Flags.noGravity flags) eqn:Hg; [apply dangle; now left|].
  destruct (orientation d p) as [solved|] eqn:Ho; [|apply dangle; now right].
  rewrite new_solved_cases with (solved := solved) by assumption.
  eexists. split; [reflexivity|]. cbn [orb].
  destruct (everyAlphaIsZero p); [reflexivity|].
  destruct (mightTwist _), (simpleTwist _ === zero); reflexivity.
Qed.

(** X8.  The twist step when only the simple twist applies: with a
    non-zero simple twist and [mightTwist] false, the stance is the
    AlignAndShift result rotated about z by the simple twist, which is
    also the twist angle. *)
Theorem simple_twist_only {EA : ExactArith num} d p flags solved :
  Flags.hasNoPoints flags = false ->
  Flags.noGravity flags = false ->
  orientation d p = Some solved ->
  everyAlphaIsZero p = false ->
  simpleTwist (Solved.groundLegsNoGravity solved) <> zero ->
  mightTwist (Solved.groundLegsNoGravity solved) = false ->
  let simple := simpleTwist (Solved.groundLegsNoGravity solved) in
  new d p flags = Some (set_twistAngle simple (twistedBy simple (aligned d p solved))).
Proof.
  intros Hp Hg Ho Ha Hs Hm simple.
  rewrite new_solved_cases with (solved := solved) by assumption.
  rewrite Ha, Hm. fold simple.
  destruct (simple === zero) eqn:E; [|reflexivity].
  apply strictEq_spec in E. contradiction.
Qed.

(** X9.  The twist step when only the complex twist applies: with a simple
    twist of 0 and [mightTwist] true, the stance is the AlignAndShift
    result rotated about z by the complex twist, which is also the twist
    angle; the rotation is made even when the complex twist is 0. *)
Theorem complex_twist_only {EA : ExactArith num} d p flags solved :
  Flags.hasNoPoints flags = false ->
  Flags.noGravity flags = false ->
  orientation d p = Some solved ->
  everyAlphaIsZero p = false ->
  simpleTwist (Solved.groundLegsNoGravity solved) = zero ->
  mightTwist (Solved.groundLegsNoGravity solved) = true ->
  let complex := complexTwist (referenceLayout d) (solvedLayout solved) in
  new d p flags = Some (set_twistAngle complex (twistedBy complex (aligned d p solved))).
Proof.
  intros Hp Hg Ho Ha Hs Hm complex.
  rewrite new_solved_cases with (solved := solved) by assumption.
  rewrite Ha, Hm, Hs. fold complex.
  assert (Z0 : (zero === zero) = true) by now apply strictEq_spec.
  rewrite Z0. reflexivity.
Qed.

(** X10.  The twist step when no twist applies: with a simple twist of 0
    and [mightTwist] false the stance stays the AlignAndShift result, with
    twist angle 0, although some alpha is not 0. *)
Theorem no_twist_found {EA : ExactArith num} d p flags solved :
  Flags.hasNoPoints flags = false ->
  Flags.noGravity flags = false ->
  orientation d p = Some solved ->
  simpleTwist (Solved.groundLegsNoGravity solved) = zero ->
  mightTwist (Solved.groundLegsNoGravity solved) = false ->
  new d p flags = Some (aligned d p solved).
Proof.
  intros Hp Hg Ho Hs Hm.
  rewrite new_solved_cases with (solved := solved) by assumption.
  rewrite Hm, Hs.
  assert (Z0 : (zero === zero) = true) by now apply strictEq_spec.
  rewrite Z0. destruct (everyAlphaIsZero p); reflexivity.
Qed.

(** *** What the flags switch off *)

(** X11.  [shiftedUp] matters to a dangling stance only: when [noGravity]
    is not set and the solver finds a support, the constructor builds the
    same stance with the flag set and without it. *)
Theorem shiftedUp_is_ignored_on_support d p solved shiftedUp shiftedUp' :
  orientation d p = Some solved ->
  new d p (Flags.make false shiftedUp false)
  = new d p (Flags.make false shiftedUp' false).
Proof.
  intros Ho.
  rewrite !new_solved_cases with (solved := solved) by (assumption || reflexivity).
  reflexivity.
Qed.

(** X12.  With [noGravity] set the constructor asks nothing of the
    orientation solver, the twist solvers, the geometry helpers or the
    default pose: the stance is the same whatever they are. *)
Theorem noGravity_asks_no_solver d p flags :
  Flags.hasNoPoints flags = false ->
  Flags.noGravity flags = true ->
  forall (OS' : OrientSolver num) (TW' : TwistSolver num)
         (GE' : GeometryModule num) (TP' : Templates num),
    @new num N HX LK OS' TW' GE' TP' d p flags
    = @new num N HX LK OS TW GE TP d p flags.
Proof.
  intros Hp Hg OS' TW' GE' TP'.
  rewrite (@new_dangling num N HX LK OS' TW' GE' TP')
    by (assumption || (left; assumption)).
  rewrite (@new_dangling num N HX LK OS TW GE TP)
    by (assumption || (left; assumption)).
  reflexivity.
Qed.

(** X18.  When all six alphas are exactly 0 and the solver finds a
    support, the constructor asks nothing of the twist solvers or of the
    default pose: the stance is the same whatever they are. *)
Theorem zero_alpha_asks_no_twist_solver {EA : ExactArith num} d p flags solved :
  allAlphaZero p ->
  Flags.hasNoPoints flags = false ->
  Flags.noGravity flags = false ->
  orientation d p = Some solved ->
  forall (TW' : TwistSolver num) (TP' : Templates num),
    @new num N HX LK OS TW' GE TP' d p flags
    = @new num N HX LK OS TW GE TP d p flags.
Proof.
  intros Ha Hp Hg Ho TW' TP'. apply everyAlphaIsZero_spec in Ha.
  rewrite (@new_solved_cases num N HX LK OS TW' GE TP') with (solved := solved)
    by assumption.
  rewrite (@new_solved_cases num N HX LK OS TW GE TP) with (solved := solved)
    by assumption.
  rewrite Ha. reflexivity.
Qed.

(** *** Twisting in place and cloning *)

(** X13.  [_twist] is [cloneTrot] done in place: on a resolved stance it
    leaves legs, body, ground contact points and local axes as
    [cloneTrot(tRotZmatrix(twistAngle))] returns them, and keeps the twist
    angle, which the clone does not. *)
Theorem twist_is_cloneTrot_in_place s :
  isResolved s = true ->
  exists s' clone,
    _twist s = Some (tt, s') /\
    cloneTrot (tRotZmatrix (twistAngle s)) s = Some (clone, s) /\
    legs s' = legs clone /\
    body s' = body clone /\
    groundContactPoints s' = groundContactPoints clone /\
    localAxes s' = localAxes clone /\
    twistAngle s' = twistAngle s /\
    twistAngle clone = zero.
Proof.
  intros H. rewrite twist_resolved by exact H.
  rewrite cloneTrot_resolved by exact H.
  eexists. eexists. repeat split.
Qed.

(** X14.  The lifted dangling stance is the plain one shifted: building
    with [shiftedUp] gives the stance that [cloneShift(0, 0, coxia + femur
    + tibia)] returns on the stance built without it. *)
Theorem shiftedUp_is_cloneShift_of_dangling {EA : ExactArith num} d p noGravity :
  noGravity = true \/ orientation d p = None ->
  exists plain lifted,
    new d p (Flags.make noGravity false false) = Some plain /\
    new d p (Flags.make noGravity true false) = Some lifted /\
    cloneShift zero zero (legLength d) plain = Some (lifted, plain).
Proof.
  intros Hd.
  rewrite !new_dangling by (reflexivity || exact Hd).
  cbn [Flags.shiftedUp]. rewrite dangling_flat, dangling_shiftedUp.
  cbv zeta. rewrite add_zero_l. fold (legLength d).
  eexists. eexists. split; [reflexivity|]. split; [reflexivity|].
  rewrite cloneShift_resolved by reflexivity.
  cbn [dimensions pose legs body localAxes groundContactPoints option_map map].
  f_equal. f_equal. f_equal.
  - f_equal. apply map_ext. intros leg.
    apply Linkage_mapPoints_ext. intros q.
    unfold Vector.cloneTrotShift. now rewrite Vector_cloneTrot_identity.
  - f_equal. apply Hexagon_mapPoints_ext. intros q.
    unfold Vector.cloneTrotShift. now rewrite Vector_cloneTrot_identity.
Qed.

(** *** Shifts *)

(** X15.  After [cloneShift(tx, ty, tz)] the distance from the ground has
    grown by [tz], and the projection of the centre of gravity has moved
    by [tx] and [ty] and stays at height 0. *)
Theorem getters_after_cloneShift s tx ty tz :
  isResolved s = true ->
  exists clone b,
    cloneShift tx ty tz s = Some (clone, s) /\
    body s = Some b /\
    distanceFromGround clone = Some (Vector.z (Hexagon.cog b) + tz) /\
    option_map Vector.coords (cogProjection clone)
    = Some (Vector.x (Hexagon.cog b) + tx, Vector.y (Hexagon.cog b) + ty, zero).
Proof.
  intros H. rewrite cloneShift_resolved by exact H.
  destruct (isResolved_fields _ H) as (ls & b & axes & points & Hl & Hb & Ha & Hg).
  eexists. exists b. split; [reflexivity|]. split; [exact Hb|].
  unfold distanceFromGround, cogProjection. cbn [body]. rewrite Hb.
  split; reflexivity.
Qed.

(** X17.  The clone methods are closed on the reachable stances: on a
    reachable stance neither throws, each leaves the stance as it was, and
    each returns a stance that is reachable and resolved in turn. *)
Theorem clones_of_reachable_are_reachable s m tx ty tz :
  Reachable s ->
  exists turned shifted,
    cloneTrot m s = Some (turned, s) /\
    cloneShift tx ty tz s = Some (shifted, s) /\
    Reachable turned /\ isResolved turned = true /\
    Reachable shifted /\ isResolved shifted = true.
Proof.
  intros H. pose proof (Reachable_resolved H) as R.
  pose proof (@cloneTrot_resolved _ _ HX LK OS TW GE TP m s R) as Et.
  pose proof (@cloneShift_resolved _ _ HX LK OS TW GE TP tx ty tz s R) as Es.
  eexists. eexists. split; [exact Et|]. split; [exact Es|].
  pose proof (Reachable_cloneTrot _ H Et) as Rt.
  pose proof (Reachable_cloneShift _ _ _ H Es) as Rs.
  split; [exact Rt|]. split; [exact (Reachable_resolved Rt)|].
  split; [exact Rs|exact (Reachable_resolved Rs)].
Qed.

End Further.

(** * The further properties at work on integer coordinates *)

Section FurtherConcrete.
Import OnIntegers MoreOnIntegers.
Local Open Scope Z_scope.

Lemma standing_is_reachable :
  Reachable (OS := levelGround) (TW := alphaTwist) standing.
Proof.
  apply Reachable_new with (dimensions := dims) (pose := turnedPose)
    (flags := Flags.default); vm_compute; reflexivity.
Qed.

Lemma moved_is_reachable :
  Reachable (OS := levelGround) (TW := alphaTwist) moved.
Proof.
  apply Reachable_cloneShift with (s := standing) (tx := 10) (ty := 0)
    (tz := 50) (s' := standing); [|vm_compute; reflexivity].
  exact standing_is_reachable.
Qed.

(** X1, witness: a shifted clone of the turned pose on level ground. *)
Lemma reachable_legs_are_canonical_witness :
  exists ls,
    legs moved = Some ls /\
    List.length ls = 6%nat /\
    legFrames ls = canonicalFrames (pose moved).
Proof.
  exact (reachable_legs_are_canonical (OS := levelGround) (TW := alphaTwist)
           moved_is_reachable).
Defined.

(** X4, witness: only [hasNoPoints] set. *)
Lemma empty_shell_has_no_geometry_witness :
  exists s,
    new (OS := levelGround) (TW := alphaTwist) dims turnedPose Flags.onlyHasNoPoints
    = Some s /\
    distanceFromGround s = None /\
    cogProjection s = None /\
    cloneTrot (OS := levelGround) (TW := alphaTwist) Matrix.identity4 s = None /\
    cloneShift (OS := levelGround) (TW := alphaTwist) 10 0 50 s = None.
Proof.
  exact (empty_shell_has_no_geometry (OS := levelGround) (TW := alphaTwist)
           dims turnedPose Flags.onlyHasNoPoints Matrix.identity4 10 0 50 eq_refl).
Defined.

(** X5, witness: the turned pose on level ground, turned a quarter and
    shifted. *)
Lemma clones_forget_the_twist_witness :
  isResolved standing = true /\
  exists turned shifted,
    cloneTrot (OS := levelGround) (TW := alphaTwist) (quarterTurn 0 1) standing
    = Some (turned, standing) /\
    cloneShift (OS := levelGround) (TW := alphaTwist) 10 0 50 standing
    = Some (shifted, standing) /\
    twistAngle turned = 0 /\ hasTwisted turned = false /\
    twistAngle shifted = 0 /\ hasTwisted shifted = false /\
    dimensions turned = dimensions standing /\ pose turned = pose standing /\
    dimensions shifted = dimensions standing /\ pose shifted = pose standing.
Proof.
  split; [reflexivity|].
  exact (clones_forget_the_twist (OS := levelGround) (TW := alphaTwist)
           (EA := Z_ExactArith) standing (quarterTurn 0 1) 10 0 50 eq_refl).
Defined.

(** X6, witness: a shifted clone of the turned pose on level ground. *)
Lemma reachable_contact_count_witness :
  exists n,
    contactCount moved = Some n /\
    (n = 0 \/ n = 3 \/ n = 4 \/ n = 5 \/ n = 6)%nat /\
    (forall m clone s',
       cloneTrot (OS := levelGround) (TW := alphaTwist) m moved = Some (clone, s') ->
       contactCount clone = Some n) /\
    (forall tx ty tz clone s',
       cloneShift (OS := levelGround) (TW := alphaTwist) tx ty tz moved
       = Some (clone, s') ->
       contactCount clone = Some n).
Proof.
  exact (reachable_contact_count (OS := levelGround) (TW := alphaTwist)
           levelGround_contract moved_is_reachable).
Defined.

(** X8, witness: the turned pose with a solver of simple twists only. *)
Lemma simple_twist_only_witness :
  new (OS := levelGround) (TW := simpleOnly) dims turnedPose Flags.default
  = Some (set_twistAngle (-90)
            (twistedBy (-90) (aligned dims turnedPose (onLevelGround turnedPose)))).
Proof.
  refine (simple_twist_only (OS := levelGround) (TW := simpleOnly)
            (EA := Z_ExactArith) dims turnedPose Flags.default
            (solved := onLevelGround turnedPose)
            eq_refl eq_refl eq_refl eq_refl _ eq_refl).
  vm_compute. discriminate.
Defined.

(** X9, witness: the turned pose with a solver of complex twists only. *)
Lemma complex_twist_only_witness :
  new (OS := levelGround) (TW := complexOnly) dims turnedPose Flags.default
  = Some (set_twistAngle 90
            (twistedBy 90 (aligned dims turnedPose (onLevelGround turnedPose)))).
Proof.
  exact (complex_twist_only (OS := levelGround) (TW := complexOnly)
           (EA := Z_ExactArith) dims turnedPose Flags.default
           (solved := onLevelGround turnedPose)
           eq_refl eq_refl eq_refl eq_refl eq_refl eq_refl).
Defined.

(** X10, witness: the turned pose with a solver that sees no twist. *)
Lemma no_twist_found_witness :
  new (OS := levelGround) (TW := noTwist) dims turnedPose Flags.default
  = Some (aligned dims turnedPose (onLevelGround turnedPose)).
Proof.
  exact (no_twist_found (OS := levelGround) (TW := noTwist)
           (EA := Z_ExactArith) dims turnedPose Flags.default
           (solved := onLevelGround turnedPose)
           eq_refl eq_refl eq_refl eq_refl eq_refl).
Defined.

(** X11, witness: the turned pose on level ground. *)
Lemma shiftedUp_is_ignored_on_support_witness :
  new (OS := levelGround) (TW := alphaTwist) dims turnedPose
      (Flags.make false true false)
  = new (OS := levelGround) (TW := alphaTwist) dims turnedPose
      (Flags.make false false false).
Proof.
  exact (shiftedUp_is_ignored_on_support (OS := levelGround) (TW := alphaTwist)
           dims turnedPose (solved := onLevelGround turnedPose) true false eq_refl).
Defined.

(** X12, witness: [noGravity] set; a solver that finds no support and a
    twist solver that sees no twist against level ground and the alpha
    twist. *)
Lemma noGravity_asks_no_solver_witness :
  @new Z Z_Number hexagon straightLegs noSupport noTwist quarterTurns templates
    dims turnedPose noGravityOnly
  = @new Z Z_Number hexagon straightLegs levelGround alphaTwist quarterTurns templates
      dims turnedPose noGravityOnly.
Proof.
  exact (@noGravity_asks_no_solver Z Z_Number hexagon straightLegs levelGround
           alphaTwist quarterTurns templates dims turnedPose noGravityOnly
           eq_refl eq_refl noSupport noTwist quarterTurns templates).
Defined.

(** X18, witness: alpha at rest, beta and gamma bent, on level ground; a
    twist solver that always twists against the alpha twist. *)
Lemma zero_alpha_asks_no_twist_solver_witness :
  @new Z Z_Number hexagon straightLegs levelGround complexOnly quarterTurns templates
    dims bentPose Flags.default
  = @new Z Z_Number hexagon straightLegs levelGround alphaTwist quarterTurns templates
      dims bentPose Flags.default.
Proof.
  assert (Ha : allAlphaZero bentPose) by (intros []; reflexivity).
  exact (@zero_alpha_asks_no_twist_solver Z Z_Number hexagon straightLegs levelGround
           alphaTwist quarterTurns templates Z_ExactArith dims bentPose Flags.default
           (onLevelGround bentPose) Ha eq_refl eq_refl eq_refl complexOnly templates).
Defined.

(** X13, witness: the turned pose on level ground. *)
Lemma twist_is_cloneTrot_in_place_witness :
  isResolved standing = true /\
  exists s' clone,
    _twist standing = Some (tt, s') /\
    cloneTrot (OS := levelGround) (TW := alphaTwist)
      (tRotZmatrix (twistAngle standing)) standing = Some (clone, standing) /\
    legs s' = legs clone /\
    body s' = body clone /\
    groundContactPoints s' = groundContactPoints clone /\
    localAxes s' = localAxes clone /\
    twistAngle s' = twistAngle standing /\
    twistAngle clone = 0.
Proof.
  split; [reflexivity|].
  exact (twist_is_cloneTrot_in_place (OS := levelGround) (TW := alphaTwist)
           standing eq_refl).
Defined.

(** X14, witness: [noGravity] set; the legs are 260 long. *)
Lemma shiftedUp_is_cloneShift_of_dangling_witness :
  exists plain lifted,
    new (OS := levelGround) (TW := alphaTwist) dims turnedPose
        (Flags.make true false false) = Some plain /\
    new (OS := levelGround) (TW := alphaTwist) dims turnedPose
        (Flags.make true true false) = Some lifted /\
    cloneShift (OS := levelGround) (TW := alphaTwist) 0 0 (legLength dims) plain
    = Some (lifted, plain).
Proof.
  exact (shiftedUp_is_cloneShift_of_dangling (OS := levelGround) (TW := alphaTwist)
           (EA := Z_ExactArith) dims turnedPose (or_introl eq_refl)).
Defined.

(** X15, witness: the turned pose on level ground, shifted by
    (10, 0, 50). *)
Lemma getters_after_cloneShift_witness :
  isResolved standing = true /\
  exists clone b,
    cloneShift (OS := levelGround) (TW := alphaTwist) 10 0 50 standing
    = Some (clone, standing) /\
    body standing = Some b /\
    distanceFromGround clone = Some (Vector.z (Hexagon.cog b) + 50) /\
    option_map Vector.coords (cogProjection clone)
    = Some (Vector.x (Hexagon.cog b) + 10, Vector.y (Hexagon.cog b) + 0, 0).
Proof.
  split; [reflexivity|].
  exact (getters_after_cloneShift (OS := levelGround) (TW := alphaTwist)
           standing 10 0 50 eq_refl).
Defined.

(** X17, witness: the turned pose on level ground. *)
Lemma clones_of_reachable_are_reachable_witness :
  exists turned shifted,
    cloneTrot (OS := levelGround) (TW := alphaTwist) (quarterTurn 0 1) standing
    = Some (turned, standing) /\
    cloneShift (OS := levelGround) (TW := alphaTwist) 10 0 50 standing
    = Some (shifted, standing) /\
    Reachable (OS := levelGround) (TW := alphaTwist) turned /\
    isResolved turned = true /\
    Reachable (OS := levelGround) (TW := alphaTwist) shifted /\
    isResolved shifted = true.
Proof.
  exact (clones_of_reachable_are_reachable (OS := levelGround) (TW := alphaTwist)
           (quarterTurn 0 1) 10 0 50 standing_is_reachable).
Defined.

(** C1.  The code at the input where it parts from the claim: all six
    alphas at -90 on level ground, with twist solvers that agree on a
    quarter turn (simple twist 90, [mightTwist] true, complex twist 90).
    The constructor records the complex twist, 90, as the twist angle,
    but the body it leaves is the AlignAndShift body turned by 180, the
    simple twist and then the complex twist, and not the AlignAndShift
    body turned by the complex twist alone, which is what the claim says
    and what the twist angle reads. *)
Theorem both_twists_turn_the_body_twice :
  simpleTwist (TwistSolver := agreeingTwist)
    (Solved.groundLegsNoGravity (onLevelGround turnedBackPose)) = 90 /\
  mightTwist (TwistSolver := agreeingTwist)
    (Solved.groundLegsNoGravity (onLevelGround turnedBackPose)) = true /\
  complexTwist (TwistSolver := agreeingTwist)
    (referenceLayout dims) (solvedLayout (onLevelGround turnedBackPose)) = 90 /\
  exists s,
    new (OS := levelGround) (TW := agreeingTwist) dims turnedBackPose Flags.default
    = Some s /\
    twistAngle s = 90 /\
    hasTwisted s = true /\
    body s
    = body (twistedBy 180 (aligned dims turnedBackPose (onLevelGround turnedBackPose))) /\
    body s
    <> body (twistedBy 90 (aligned dims turnedBackPose (onLevelGround turnedBackPose))) /\
    ~ complexTwistAlone (OS := levelGround) (TW := agreeingTwist)
        dims turnedBackPose Flags.default.
Proof.
  split; [reflexivity|]. split; [reflexivity|]. split; [reflexivity|].
  eexists. split; [vm_compute; reflexivity|].
  split; [reflexivity|]. split; [reflexivity|].
  split; [vm_compute; reflexivity|].
  split; [vm_compute; discriminate|].
  intros H.
  destruct (H (onLevelGround turnedBackPose)) as (s & E & _ & Hb & _);
    try reflexivity.
  - vm_compute. discriminate.
  - vm_compute in E. injection E as <-. vm_compute in Hb. discriminate.
Qed.

End FurtherConcrete.
